(** * profile_firebase: a verification development

    A shallow embedding of [profile_firebase.py] and the properties of its
    interval scheduler, file-name formatter, process terminator, profiling
    runner and control loop.

    Conventions of the embedding.
    - A [datetime.timedelta] is its integer number of microseconds (Python
      normalises every timedelta to exactly that), so [%] on timedeltas is
      the floor remainder of integers, [Z.modulo].
    - A Python [float] of seconds ([time.time()], [total_seconds()], the
      time-outs) is represented by the number of microseconds it stands
      for; rounding is not modelled.  The only float test the program makes
      is [total_seconds() == 0] on a remainder below 24 hours, which is
      exact.
    - A raised exception is a value of [exn]; a computation that may raise
      returns a [result]. *)

From Stdlib Require Import ZArith Lia Bool List Ascii String DecimalString.
From stdpp Require Import base strings list.
Import ListNotations.

Local Open Scope Z_scope.

(* ===================================================================== *)
(** * Part I: definitions                                                  *)
(* ===================================================================== *)

(** ** Exceptions and results *)

Inductive exn : Type :=
| AssertionError
| ZeroDivisionError
| TypeError (msg : string)
| RuntimeError (msg : string)
| TimeoutExpired
| UnicodeDecodeError
| OSError (msg : string).

Inductive result (A : Type) : Type :=
| Ok (a : A)
| Raise (e : exn).
Arguments Ok {A} a.
Arguments Raise {A} e.

Definition rbind {A B} (r : result A) (k : A -> result B) : result B :=
  match r with
  | Ok a => k a
  | Raise e => Raise e
  end.

Definition py_assert (b : bool) : result unit :=
  if b then Ok tt else Raise AssertionError.

Global Instance result_ret : MRet result := fun A a => Ok a.
Global Instance result_bind : MBind result := fun A B k r => rbind r k.

(** ** datetime.timedelta *)

Abbreviation timedelta := Z (only parsing).

Definition td_microseconds (n : Z) : timedelta := n.
Definition td_seconds (n : Z) : timedelta := n * 1000000.
Definition td_minutes (n : Z) : timedelta := n * 60000000.
Definition td_hours (n : Z) : timedelta := n * 3600000000.

(** [datetime.timedelta(seconds=s, microseconds=us)] *)
Definition mk_timedelta (seconds microseconds : Z) : timedelta :=
  td_seconds seconds + td_microseconds microseconds.

(** [a % b] on timedeltas: floor remainder, [ZeroDivisionError] on a zero
    divisor. *)
Definition td_mod (a b : timedelta) : result timedelta :=
  if b =? 0 then Raise ZeroDivisionError else Ok (a mod b).

(** A float of seconds, held as the microseconds it denotes. *)
Abbreviation pyfloat := Z (only parsing).

Definition total_seconds (d : timedelta) : pyfloat := d.

(** ** datetime.datetime and datetime.time *)

Record time_of_day : Type := MkTime {
  t_hour : N;
  t_minute : N;
  t_second : N;
  t_microsecond : N
}.

(** [tzinfo] is [None] for a naive datetime and otherwise the UTC offset of
    the attached time zone. *)
Record datetime : Type := MkDatetime {
  year : N;
  month : N;
  day : N;
  hour : N;
  minute : N;
  second : N;
  microsecond : N;
  tzinfo : option timedelta
}.

(** [value.time()] *)
Definition datetime_time (d : datetime) : time_of_day :=
  {| t_hour := hour d; t_minute := minute d;
     t_second := second d; t_microsecond := microsecond d |}.

(** [value.replace(microsecond=us)] *)
Definition replace_microsecond (d : datetime) (us : N) : datetime :=
  {| year := year d; month := month d; day := day d;
     hour := hour d; minute := minute d; second := second d;
     microsecond := us; tzinfo := tzinfo d |}.

(** [value.replace(tzinfo=tz)] *)
Definition replace_tzinfo (d : datetime) (tz : option timedelta) : datetime :=
  {| year := year d; month := month d; day := day d;
     hour := hour d; minute := minute d; second := second d;
     microsecond := microsecond d; tzinfo := tz |}.

Definition utc : option timedelta := Some 0.

(** ** Module constants *)

Definition LOGFILE_PERIOD : timedelta := td_minutes 30.
Definition PROFILER_OUTPUT_WAIT_TIMEOUT : timedelta := td_seconds 30.
Definition SIGTERM_GRACE_PERIOD : timedelta := td_seconds 5.
(** [timedelta(seconds=0.1)] rounds to 100000 microseconds. *)
Definition SIGNAL_SUCCESS_CHECK_POLL_FREQUENCY : timedelta :=
  td_microseconds 100000.

(** ** get_time_until_next_interval_start *)

(** The time of day as an offset from midnight (lines 61-65). *)
Definition time_as_timedelta (t : time_of_day) : timedelta :=
  mk_timedelta
    (Z.of_N (t_hour t) * 60 * 60 + Z.of_N (t_minute t) * 60
     + Z.of_N (t_second t))
    (Z.of_N (t_microsecond t)).

Definition get_time_until_next_interval_start
    (current_datetime : datetime) (interval_period : timedelta)
    : result timedelta :=
  py_assert (interval_period <=? td_hours 24) ;;
  r ← td_mod (td_hours 24) interval_period ;
  py_assert (total_seconds r =? 0) ;;
  let current_time := datetime_time current_datetime in
  let current_time_as_dt := time_as_timedelta current_time in
  m ← td_mod current_time_as_dt interval_period ;
  Ok (interval_period - m).

(** The precondition stated in the comment above the two assertions. *)
Definition valid_period (p : timedelta) : Prop :=
  p <= td_hours 24 /\ (p | td_hours 24).

(** ** Strings: [%0Nd], [str.replace], [isoformat] *)

(** Python [str] and [bytes] are both held as Rocq strings (sequences of
    8-bit characters): a [str] is held as its UTF-8 encoding. *)
Abbreviation bytes := string (only parsing).

Definition nl : string := String (ascii_of_nat 10) "".

Definition str_of_N (n : N) : string :=
  NilEmpty.string_of_uint (N.to_uint n).

Fixpoint zeros (n : nat) : string :=
  match n with
  | O => ""
  | S k => String "0" (zeros k)
  end.

(** ["%0{width}d" % n] for a natural number. *)
Definition zero_pad (width : nat) (n : N) : string :=
  let s := str_of_N n in
  zeros (width - String.length s) +:+ s.

(** One pass of [str.replace] for a non-empty [old]: scan left to right,
    replace each occurrence and resume after it ([skip] counts the
    characters of the occurrence still to be passed over). *)
Fixpoint replace_from (old new : string) (skip : nat) (s : string) : string :=
  match s with
  | EmptyString => ""
  | String c rest =>
      match skip with
      | S k => replace_from old new k rest
      | O =>
          if String.prefix old s
          then new +:+ replace_from old new (String.length old - 1) rest
          else String c (replace_from old new 0 rest)
      end
  end.

Fixpoint intersperse_after (new s : string) : string :=
  match s with
  | EmptyString => ""
  | String c rest => String c (new +:+ intersperse_after new rest)
  end.

(** [s.replace(old, new)]; an empty [old] matches before every character
    and at the end. *)
Definition str_replace (old new s : string) : string :=
  match old with
  | EmptyString => new +:+ intersperse_after new s
  | _ => replace_from old new 0 s
  end.

(** Character classes used to reason about the rendered fields. *)
Fixpoint string_forallb (P : ascii -> bool) (s : string) : bool :=
  match s with
  | EmptyString => true
  | String c rest => P c && string_forallb P rest
  end.

Definition is_digit (c : ascii) : bool :=
  (48 <=? N_of_ascii c)%N && (N_of_ascii c <=? 57)%N.

Definition lacks (c : ascii) (s : string) : bool :=
  string_forallb (fun x => negb (Ascii.eqb x c)) s.

(** The UTC-offset suffix of [isoformat]: nothing for a naive value,
    otherwise sign, hours and minutes, and seconds and microseconds only
    when they are not zero. *)
Definition format_offset (off : option timedelta) : string :=
  match off with
  | None => ""
  | Some o =>
      let sign := if o <? 0 then "-" else "+" in
      let a := Z.abs o in
      let hh := a / td_hours 1 in
      let r := a mod td_hours 1 in
      let mm := r / td_minutes 1 in
      let ss := r mod td_minutes 1 in
      sign +:+ zero_pad 2 (Z.to_N hh) +:+ ":" +:+ zero_pad 2 (Z.to_N mm)
      +:+ (if ss =? 0 then ""
           else ":" +:+ zero_pad 2 (Z.to_N (ss / td_seconds 1))
                +:+ (if ss mod td_seconds 1 =? 0 then ""
                     else "." +:+ zero_pad 6 (Z.to_N (ss mod td_seconds 1))))
  end.

(** [HH:MM:SS], followed by [.ffffff] when the microseconds are not zero. *)
Definition format_time (hh mm ss us : N) : string :=
  zero_pad 2 hh +:+ ":" +:+ zero_pad 2 mm +:+ ":" +:+ zero_pad 2 ss
  +:+ (if N.eqb us 0 then "" else "." +:+ zero_pad 6 us).

(** [value.isoformat()] *)
Definition isoformat (d : datetime) : string :=
  zero_pad 4 (year d) +:+ "-" +:+ zero_pad 2 (month d) +:+ "-"
  +:+ zero_pad 2 (day d) +:+ "T"
  +:+ format_time (hour d) (minute d) (second d) (microsecond d)
  +:+ format_offset (tzinfo d).

(** ** format_datetime_for_filename *)

Definition format_datetime_for_filename (value : datetime) : string :=
  let formatted_value := replace_microsecond value 0 in
  let formatted_value := isoformat formatted_value in
  let formatted_value := str_replace "+00:00" "Z" formatted_value in
  let formatted_value := str_replace ":" "-" formatted_value in
  formatted_value.

(** The rendering the specification describes: ISO-8601 at second
    precision, dashes in place of colons, and a [Z] suffix. *)
Definition spec_filename_stamp (d : datetime) : string :=
  zero_pad 4 (year d) +:+ "-" +:+ zero_pad 2 (month d) +:+ "-"
  +:+ zero_pad 2 (day d) +:+ "T"
  +:+ zero_pad 2 (hour d) +:+ "-" +:+ zero_pad 2 (minute d) +:+ "-"
  +:+ zero_pad 2 (second d) +:+ "Z".

(** ** bytes.decode("UTF-8") *)

Definition is_cont (b : N) : bool := (128 <=? b)%N && (b <=? 191)%N.
Definition in_range (lo hi b : N) : bool := (lo <=? b)%N && (b <=? hi)%N.

(** Strict UTF-8 well-formedness of a byte sequence: no overlong forms, no
    surrogates, nothing above U+10FFFF, no truncated sequence. *)
Fixpoint utf8_valid (l : list N) : bool :=
  match l with
  | [] => true
  | b0 :: r =>
      if (b0 <? 128)%N then utf8_valid r
      else if in_range 194 223 b0 then
        match r with
        | b1 :: r1 => is_cont b1 && utf8_valid r1
        | _ => false
        end
      else if in_range 224 239 b0 then
        match r with
        | b1 :: b2 :: r2 =>
            (if (b0 =? 224)%N then in_range 160 191 b1
             else if (b0 =? 237)%N then in_range 128 159 b1
             else is_cont b1)
            && is_cont b2 && utf8_valid r2
        | _ => false
        end
      else if in_range 240 244 b0 then
        match r with
        | b1 :: b2 :: b3 :: r3 =>
            (if (b0 =? 240)%N then in_range 144 191 b1
             else if (b0 =? 244)%N then in_range 128 143 b1
             else is_cont b1)
            && is_cont b2 && is_cont b3 && utf8_valid r3
        | _ => false
        end
      else false
  end.

Definition byte_values (b : bytes) : list N :=
  map N_of_ascii (list_ascii_of_string b).

(** [b.decode("UTF-8")] with the default strict error handling. *)
Definition decode_utf8 (b : bytes) : result string :=
  if utf8_valid (byte_values b) then Ok b else Raise UnicodeDecodeError.

(** ** Dynamically typed arithmetic on floats and timedeltas *)

Inductive pyval : Type :=
| PyFloat (us : pyfloat)
| PyTimedelta (d : timedelta).

Definition type_name (v : pyval) : string :=
  match v with
  | PyFloat _ => "float"
  | PyTimedelta _ => "datetime.timedelta"
  end.

Definition unsupported (op : string) (a b : pyval) : exn :=
  TypeError ("unsupported operand type(s) for " +:+ op +:+ ": '"
             +:+ type_name a +:+ "' and '" +:+ type_name b +:+ "'").

Definition py_add (a b : pyval) : result pyval :=
  match a, b with
  | PyFloat x, PyFloat y => Ok (PyFloat (x + y))
  | PyTimedelta x, PyTimedelta y => Ok (PyTimedelta (x + y))
  | _, _ => Raise (unsupported "+" a b)
  end.

Definition py_sub (a b : pyval) : result pyval :=
  match a, b with
  | PyFloat x, PyFloat y => Ok (PyFloat (x - y))
  | PyTimedelta x, PyTimedelta y => Ok (PyTimedelta (x - y))
  | _, _ => Raise (unsupported "-" a b)
  end.

Definition py_lt (a b : pyval) : result bool :=
  match a, b with
  | PyFloat x, PyFloat y => Ok (x <? y)
  | PyTimedelta x, PyTimedelta y => Ok (x <? y)
  | _, _ =>
      Raise (TypeError ("'<' not supported between instances of '"
                        +:+ type_name a +:+ "' and '" +:+ type_name b +:+ "'"))
  end.

(** The error of [float + timedelta]. *)
Definition float_plus_timedelta : exn :=
  TypeError "unsupported operand type(s) for +: 'float' and 'datetime.timedelta'".

(** ** The subordinate process and the controller's world *)

(** A subordinate is described by when it exits, on a virtual clock in
    microseconds: on its own ([natural_exit], counted from the launch), after
    the stop token reaches its standard input ([stop_latency]), after
    SIGTERM ([term_latency]) and after SIGKILL ([kill_latency]); [None]
    means that it does not react.  It also fixes what the pipes deliver.

    A subordinate that exits on its own may leave a child behind that
    still holds its output pipes: [orphan_linger] is how long the pipes
    stay open after such an exit ([Some 0]: there is no such child; [None]:
    for ever).  An exit that the controller asks for is taken to be
    orderly: the pipes are at end-of-file when the process is gone. *)
Record subordinate : Type := MkSub {
  natural_exit : option Z;
  stop_latency : option Z;
  term_latency : option Z;
  kill_latency : Z;
  orphan_linger : option Z;
  sub_returncode : Z;
  sub_stdout : bytes;
  sub_stderr : bytes
}.

(** An element of the argument vector given to [subprocess.Popen];
    [ArgFloat us] is [str] of a float of seconds. *)
Inductive arg : Type :=
| ArgStr (s : string)
| ArgFloat (us : pyfloat)
| ArgNone.

(** What the controller does to the outside, in order. *)
Inductive event : Type :=
| EvPopen (argv : list arg)
| EvTime
| EvWait (timeout : pyfloat)
| EvPoll
| EvCommunicate (input : option bytes) (timeout : option pyfloat)
| EvTerminate
| EvKill
| EvSleep (d : pyfloat).

Record world : Type := MkWorld {
  sub : subordinate;
  clock : Z;
  exit_at : option Z;     (* the instant at which the process is gone *)
  natural_at : option Z;  (* the instant of its exit, if left alone *)
  stdin_open : bool;
  trace : list event
}.

Definition init_world (s : subordinate) (t0 : Z) : world :=
  {| sub := s; clock := t0; exit_at := None; natural_at := None;
     stdin_open := true; trace := [] |}.

Definition has_exited (w : world) : bool :=
  match exit_at w with
  | Some e => e <=? clock w
  | None => false
  end.

Definition record_event (ev : event) (w : world) : world :=
  {| sub := sub w; clock := clock w; exit_at := exit_at w;
     natural_at := natural_at w;
     stdin_open := stdin_open w; trace := trace w ++ [ev] |}.

Definition set_clock (t : Z) (w : world) : world :=
  {| sub := sub w; clock := t; exit_at := exit_at w;
     natural_at := natural_at w;
     stdin_open := stdin_open w; trace := trace w |}.

Definition set_exit_at (e : option Z) (w : world) : world :=
  {| sub := sub w; clock := clock w; exit_at := e;
     natural_at := natural_at w;
     stdin_open := stdin_open w; trace := trace w |}.

Definition set_natural_at (e : option Z) (w : world) : world :=
  {| sub := sub w; clock := clock w; exit_at := exit_at w;
     natural_at := e;
     stdin_open := stdin_open w; trace := trace w |}.

Definition close_stdin (w : world) : world :=
  {| sub := sub w; clock := clock w; exit_at := exit_at w;
     natural_at := natural_at w;
     stdin_open := false; trace := trace w |}.

(** The instant at which both output pipes are at end-of-file: the exit
    itself when the controller asked for it, and [orphan_linger] later when
    the subordinate went on its own. *)
Definition output_complete_at (w : world) : option Z :=
  match exit_at w with
  | None => None
  | Some e =>
      match natural_at w with
      | Some n =>
          if n =? e
          then option_map (fun g => e + Z.max 0 g) (orphan_linger (sub w))
          else Some e
      | None => Some e
      end
  end.

(** A request that makes a live process exit [lat] later; the earliest
    scheduled exit wins, and a dead process is not affected. *)
Definition schedule_exit (lat : option Z) (w : world) : world :=
  if has_exited w then w
  else match lat with
       | None => w
       | Some l =>
           let e := clock w + Z.max 0 l in
           match exit_at w with
           | Some e0 => set_exit_at (Some (Z.min e0 e)) w
           | None => set_exit_at (Some e) w
           end
       end.

(** ** The controller monad: state, exceptions and divergence *)

Inductive outcome (A : Type) : Type :=
| Ret (a : A)
| Exc (e : exn)
| Diverge.
Arguments Ret {A} a.
Arguments Exc {A} e.
Arguments Diverge {A}.

Definition M (A : Type) : Type := world -> outcome A * world.

Definition m_ret {A} (a : A) : M A := fun w => (Ret a, w).

Definition m_bind {A B} (m : M A) (k : A -> M B) : M B :=
  fun w =>
    match m w with
    | (Ret a, w') => k a w'
    | (Exc e, w') => (Exc e, w')
    | (Diverge, w') => (Diverge, w')
    end.

Global Instance M_ret : MRet M := fun A a => m_ret a.
Global Instance M_bind : MBind M := fun A B k m => m_bind m k.

Definition raise {A} (e : exn) : M A := fun w => (Exc e, w).
Definition diverge {A} : M A := fun w => (Diverge, w).

Definition lift {A} (r : result A) : M A :=
  match r with
  | Ok a => m_ret a
  | Raise e => raise e
  end.

(** [try: body  except subprocess.TimeoutExpired: handler] *)
Definition try_timeout {A} (body handler : M A) : M A :=
  fun w =>
    match body w with
    | (Exc TimeoutExpired, w') => handler w'
    | r => r
    end.

(** ** The operations of [time] and [subprocess.Popen] *)

Definition time_time : M pyval :=
  fun w => (Ret (PyFloat (clock w)), record_event EvTime w).

Definition time_sleep (d : pyfloat) : M unit :=
  fun w =>
    let w1 := record_event (EvSleep d) w in
    (Ret tt, set_clock (clock w1 + Z.max 0 d) w1).

Definition popen (argv : list arg) : M unit :=
  fun w =>
    if existsb (fun a => match a with ArgNone => true | _ => false end) argv
    then (Exc (TypeError "expected str, bytes or os.PathLike object, not NoneType"), w)
    else
      let w1 := record_event (EvPopen argv) w in
      let e := option_map (fun d => clock w1 + Z.max 0 d) (natural_exit (sub w1)) in
      (Ret tt, set_natural_at e (set_exit_at e w1)).

(** [process.poll()]: the return code once the process is gone. *)
Definition poll : M (option Z) :=
  fun w =>
    let w1 := record_event EvPoll w in
    (Ret (if has_exited w1 then Some (sub_returncode (sub w1)) else None), w1).

Definition terminate : M unit :=
  fun w =>
    let w1 := record_event EvTerminate w in
    (Ret tt, schedule_exit (term_latency (sub w1)) w1).

Definition kill : M unit :=
  fun w =>
    let w1 := record_event EvKill w in
    (Ret tt, schedule_exit (Some (kill_latency (sub w1))) w1).

(** Whether an exit at instant [e] comes before a wait started now with
    [timeout] gives up ([None]: the wait has no limit). *)
Definition within (timeout : option pyfloat) (w : world) (e : Z) : bool :=
  match timeout with
  | None => true
  | Some t => (e <=? clock w) || (e <=? clock w + t)
  end.

(** Block until the instant [target] or until [timeout] has passed;
    without a limit, a target that never comes blocks the caller for
    ever. *)
Definition await_until (target : option Z) (timeout : option pyfloat) : M unit :=
  fun w =>
    match target, timeout with
    | Some e, _ =>
        if within timeout w e then (Ret tt, set_clock (Z.max (clock w) e) w)
        else (Exc TimeoutExpired,
              set_clock (clock w + Z.max 0 (default 0 timeout)) w)
    | None, Some t => (Exc TimeoutExpired, set_clock (clock w + Z.max 0 t) w)
    | None, None => (Diverge, w)
    end.

(** Block until the process is gone. *)
Definition await_exit (timeout : option pyfloat) : M unit :=
  fun w => await_until (exit_at w) timeout w.

(** Block until the process is gone and both pipes are at end-of-file. *)
Definition await_output (timeout : option pyfloat) : M unit :=
  fun w => await_until (output_complete_at w) timeout w.

(** [process.wait(timeout=t)] *)
Definition wait (timeout : pyfloat) : M unit :=
  fun w => await_exit (Some timeout) (record_event (EvWait timeout) w).

(** [process.communicate(input, timeout)]: feed [input] and close the
    standard input (once), then read both pipes to end-of-file, wait for
    the exit and deliver the captured standard output and standard
    error. *)
Definition communicate (input : option bytes) (timeout : option pyfloat)
    : M (bytes * bytes) :=
  fun w =>
    let w1 := record_event (EvCommunicate input timeout) w in
    let w2 :=
      if stdin_open w1 then
        close_stdin
          (match input with
           | Some _ => schedule_exit (stop_latency (sub w1)) w1
           | None => w1
           end)
      else w1 in
    match await_output timeout w2 with
    | (Ret _, w3) => (Ret (sub_stdout (sub w3), sub_stderr (sub w3)), w3)
    | (Exc e, w3) => (Exc e, w3)
    | (Diverge, w3) => (Diverge, w3)
    end.

(** ** end_process *)

Definition PROFILER_FINISH_INPUT : bytes := nl.

(** The [while] of lines 27-31.  The result tells whether the function
    returned from inside the loop (line 30).  [fuel] bounds the number of
    iterations; the condition is evaluated before fuel is looked at, and
    running out of fuel is reported as [Diverge]. *)
Fixpoint grace_loop (sigterm_time : pyval) (fuel : nat) : M bool :=
  now ← time_time ;
  limit ← lift (d ← py_add sigterm_time (PyTimedelta SIGTERM_GRACE_PERIOD) ;
                py_sub d (PyTimedelta SIGNAL_SUCCESS_CHECK_POLL_FREQUENCY)) ;
  c ← lift (py_lt now limit) ;
  if (c : bool) then
    r ← poll ;
    match r with
    | None => mret true
    | Some _ =>
        time_sleep (total_seconds SIGNAL_SUCCESS_CHECK_POLL_FREQUENCY) ;;
        match fuel with
        | O => diverge
        | S f => grace_loop sigterm_time f
        end
    end
  else mret false.

(** The [while] of lines 34-35. *)
Fixpoint kill_wait_loop (fuel : nat) : M unit :=
  r ← poll ;
  match r with
  | Some _ =>
      time_sleep (total_seconds SIGNAL_SUCCESS_CHECK_POLL_FREQUENCY) ;;
      match fuel with
      | O => diverge
      | S f => kill_wait_loop f
      end
  | None => mret tt
  end.

Definition end_process (fuel : nat) : M unit :=
  sigterm_time ← time_time ;
  terminate ;;
  returned ← grace_loop sigterm_time fuel ;
  if (returned : bool) then mret tt
  else
    kill ;;
    kill_wait_loop fuel.

(** ** run_profiler *)

Definition early_message (out err : string) : string :=
  "Profiler process terminated early." +:+ nl +:+ " stdout: " +:+ out
  +:+ nl +:+ " stderr: " +:+ err.

Definition unresponsive_message (out err : string) : string :=
  "Profiler process failed to terminate." +:+ nl +:+ " stdout: " +:+ out
  +:+ nl +:+ " stderr: " +:+ err.

Definition profiler_argv (run_length : timedelta) (fb_project : option string)
    (extra_profiler_args : list string) : list arg :=
  [ArgStr "firebase"; ArgStr "database:profile"; ArgStr "--duration";
   ArgFloat (total_seconds run_length); ArgStr "--project";
   match fb_project with Some p => ArgStr p | None => ArgNone end]
  ++ map ArgStr extra_profiler_args.

Definition run_profiler (fuel : nat) (run_length : timedelta)
    (fb_project : option string) (extra_profiler_args : option (list string))
    : M string :=
  let extra_profiler_args :=
    match extra_profiler_args with
    | Some (x :: l) => x :: l
    | _ => []
    end in
  popen (profiler_argv run_length fb_project extra_profiler_args) ;;
  try_timeout
    (wait (total_seconds run_length + total_seconds PROFILER_OUTPUT_WAIT_TIMEOUT))
    (mret tt) ;;
  r ← poll ;
  match r with
  | Some _ =>
      (* Process has terminated early, unexpected. *)
      '(stdout, stderr) ← communicate None None ;
      out ← lift (decode_utf8 stdout) ;
      err ← lift (decode_utf8 stderr) ;
      raise (RuntimeError (early_message out err))
  | None =>
      '(stdout, stderr) ←
        try_timeout
          (communicate (Some PROFILER_FINISH_INPUT)
             (Some (total_seconds PROFILER_OUTPUT_WAIT_TIMEOUT)))
          (end_process fuel ;;
           '(stdout, stderr) ← communicate None None ;
           out ← lift (decode_utf8 stdout) ;
           err ← lift (decode_utf8 stderr) ;
           raise (RuntimeError (unresponsive_message out err))) ;
      stdout ← lift (decode_utf8 stdout) ;
      mret stdout
  end.


(** The subordinate exits on its own no later than [d] after its launch. *)
Definition exits_within (s : subordinate) (d : Z) : Prop :=
  match natural_exit s with
  | Some e => Z.max 0 e <= d
  | None => False
  end.

Definition count_event (p : event -> bool) (l : list event) : nat :=
  length (List.filter p l).

Definition is_kill (ev : event) : bool :=
  match ev with EvKill => true | _ => false end.

Definition is_poll (ev : event) : bool :=
  match ev with EvPoll => true | _ => false end.

Definition is_terminate (ev : event) : bool :=
  match ev with EvTerminate => true | _ => false end.

(** Two sample subordinates: one that ignores the stop token and SIGTERM,
    and one that ignores the stop token but exits a second after SIGTERM. *)
Definition stubborn : subordinate :=
  {| natural_exit := None; stop_latency := None; term_latency := None;
     kill_latency := 0; orphan_linger := Some 0; sub_returncode := -9;
     sub_stdout := ""; sub_stderr := "" |}.

Definition compliant : subordinate :=
  {| natural_exit := None; stop_latency := None;
     term_latency := Some (td_seconds 1);
     kill_latency := 0; orphan_linger := Some 0; sub_returncode := -15;
     sub_stdout := ""; sub_stderr := "" |}.


Definition crashed : subordinate :=
  {| natural_exit := Some 0; stop_latency := None; term_latency := None;
     kill_latency := 0; orphan_linger := Some 0; sub_returncode := 1;
     sub_stdout := "usage"; sub_stderr := "no such project" |}.

Definition well_behaved : subordinate :=
  {| natural_exit := None; stop_latency := Some (td_seconds 1);
     term_latency := Some 0;
     kill_latency := 0; orphan_linger := Some 0; sub_returncode := 0;
     sub_stdout := "report"; sub_stderr := "" |}.

(** One that exits at once but leaves a child behind that keeps the pipes
    open for ever. *)
Definition orphaning : subordinate :=
  {| natural_exit := Some 0; stop_latency := None; term_latency := None;
     kill_latency := 0; orphan_linger := None; sub_returncode := 1;
     sub_stdout := "usage"; sub_stderr := "no such project" |}.

(** The world just after [Popen] has started [s] at instant [t0]. *)
Definition launched (s : subordinate) (t0 : Z) : world :=
  snd (popen [ArgStr "firebase"] (init_world s t0)).

(** ** main: the control loop *)

Record args : Type := MkArgs {
  output_folder : string;
  fb_project : option string;        (* [None] when [--project] is absent *)
  output_format_raw : bool
}.

Fixpoint ends_with_sep (s : string) : bool :=
  match s with
  | EmptyString => false
  | String c EmptyString => Ascii.eqb c "/"
  | String _ rest => ends_with_sep rest
  end.

(** [os.path.join(a, b)] on POSIX: an absolute [b] discards [a]. *)
Definition path_join (a b : string) : string :=
  if String.prefix "/" b then b
  else if String.eqb a "" || ends_with_sep a then a +:+ b
  else a +:+ "/" +:+ b.

(** How an f-string renders [args.fb_project]. *)
Definition render_project (p : option string) : string :=
  match p with
  | Some s => s
  | None => "None"
  end.

(** Log records are kept structured: [InfoStarting start run_length] is the
    message of line 144, [ErrorRecord e] is [logging.error(str(e))], and
    [InfoWrote path] the message of line 157. *)
Inductive log_record : Type :=
| InfoStarting (run_start_time : datetime) (run_length : timedelta)
| ErrorRecord (e : exn)
| InfoWrote (output_filepath : string).

(** What one pass through the loop does, in order: log records, the calls
    made on the subordinate by one [run_profiler], and file writes. *)
Inductive journal_entry : Type :=
| JLog (r : log_record)
| JRun (run_length : timedelta) (calls : list event)
| JWrite (output_filepath data : string).

(** The state of [main] is what it has done so far.  The file system is
    not part of it: a [JWrite] entry stands for an [open] and a [write]
    that both succeeded. *)
Record main_state : Type := MkMain {
  journal : list journal_entry
}.

Definition note (j : journal_entry) (st : main_state) : main_state :=
  {| journal := journal st ++ [j] |}.

(** [with open(path, 'w') as file: file.write(data)].  Whether the file
    can be opened and written is decided outside the program (a missing
    directory, permissions, a full disk): [failure] is the exception the
    two calls raise, if any. *)
Definition write_file (failure : option exn) (path data : string)
    (st : main_state) : outcome main_state :=
  match failure with
  | Some e => Exc e
  | None => Ret (note (JWrite path data) st)
  end.

(** What the environment supplies to one pass: the reading of
    [datetime.datetime.utcnow()], the subordinate that [Popen] starts, the
    reading of the clock at that moment, and what opening and writing the
    output file does ([None]: both succeed). *)
Record cycle_env : Type := MkEnv {
  env_utcnow : datetime;
  env_sub : subordinate;
  env_clock : Z;
  env_open : option exn
}.

Definition is_write (j : journal_entry) : bool :=
  match j with
  | JWrite _ _ => true
  | _ => false
  end.

Definition is_run (j : journal_entry) : bool :=
  match j with
  | JRun _ _ => true
  | _ => false
  end.

Definition output_filename (a : args) (run_start_time : datetime)
    (output_file_extension : string) : string :=
  render_project (fb_project a) +:+ "-"
  +:+ format_datetime_for_filename run_start_time +:+ "."
  +:+ output_file_extension.

(** The body of [while True] (lines 138-157).  [Ret] is the state at the
    next loop head, whether reached by falling through or by [continue];
    [Exc] is an exception that leaves [main]: only the call of
    [run_profiler] is inside the [try]. *)
Definition loop_body (fuel : nat) (a : args) (extra_profiler_args : list string)
    (output_file_extension : string) (env : cycle_env) (st : main_state)
    : outcome main_state :=
  let current_time := replace_tzinfo (env_utcnow env) utc in
  match get_time_until_next_interval_start current_time LOGFILE_PERIOD with
  | Raise e => Exc e
  | Ok run_length =>
      let run_start_time := current_time in
      let st := note (JLog (InfoStarting run_start_time run_length)) st in
      match run_profiler fuel run_length (fb_project a) (Some extra_profiler_args)
              (init_world (env_sub env) (env_clock env)) with
      | (Exc e, w) =>
          (* Recover and keep running despite any errors *)
          Ret (note (JLog (ErrorRecord e)) (note (JRun run_length (trace w)) st))
      | (Diverge, _) => Diverge
      | (Ret data, w) =>
          let st := note (JRun run_length (trace w)) st in
          let output_filepath :=
            path_join (output_folder a)
              (output_filename a run_start_time output_file_extension) in
          match write_file (env_open env) output_filepath data st with
          | Ret st => Ret (note (JLog (InfoWrote output_filepath)) st)
          | Exc e => Exc e
          | Diverge => Diverge
          end
      end
  end.

(** The loop, run for as many passes as the environment describes. *)
Fixpoint main_loop (fuel : nat) (a : args) (extra_profiler_args : list string)
    (output_file_extension : string) (envs : list cycle_env) (st : main_state)
    : outcome main_state :=
  match envs with
  | [] => Ret st
  | env :: rest =>
      match loop_body fuel a extra_profiler_args output_file_extension env st with
      | Ret st' =>
          main_loop fuel a extra_profiler_args output_file_extension rest st'
      | Exc e => Exc e
      | Diverge => Diverge
      end
  end.

Definition main (fuel : nat) (a : args) (envs : list cycle_env)
    (st : main_state) : outcome main_state :=
  let extra_profiler_args := if output_format_raw a then ["--raw"] else [] in
  let output_file_extension := if output_format_raw a then "json" else "txt" in
  main_loop fuel a extra_profiler_args output_file_extension envs st.

(** The length of the run window that starts at [now]: the time left
    until the next boundary of the [LOGFILE_PERIOD] grid. *)
Definition window_length (now : datetime) : timedelta :=
  LOGFILE_PERIOD - time_as_timedelta (datetime_time now) mod LOGFILE_PERIOD.

(** The directory part of a path directly under [folder]. *)
Definition dir_prefix (folder : string) : string :=
  if String.eqb folder "" || ends_with_sep folder then folder
  else folder +:+ "/".

(** What the journal gains during one pass. *)
Definition success_entries (now : datetime) (calls : list event)
    (path data : string) : list journal_entry :=
  [JLog (InfoStarting (replace_tzinfo now utc) (window_length now));
   JRun (window_length now) calls;
   JWrite path data;
   JLog (InfoWrote path)].

Definition failure_entries (now : datetime) (calls : list event) (e : exn)
    : list journal_entry :=
  [JLog (InfoStarting (replace_tzinfo now utc) (window_length now));
   JRun (window_length now) calls;
   JLog (ErrorRecord e)].

(** Sample inputs of the loop. *)
Definition sample_args : args :=
  {| output_folder := "/home/u/logs/"; fb_project := Some "demo";
     output_format_raw := false |}.

Definition misdirected_args : args :=
  {| output_folder := "/home/u/logs/"; fb_project := Some "/srv/demo";
     output_format_raw := false |}.

Definition sample_now : datetime := MkDatetime 2023 5 1 0 15 30 123456 None.

Definition sample_env : cycle_env :=
  {| env_utcnow := sample_now; env_sub := well_behaved; env_clock := 0;
     env_open := None |}.

Definition failing_env : cycle_env :=
  {| env_utcnow := sample_now; env_sub := crashed; env_clock := 0;
     env_open := None |}.

(** A pass one second after [failing_env], in the same grid window. *)
Definition retry_env : cycle_env :=
  {| env_utcnow := MkDatetime 2023 5 1 0 15 31 123456 None;
     env_sub := well_behaved; env_clock := 1000000; env_open := None |}.


Definition empty_state : main_state := {| journal := [] |}.

Definition count_runs (st : main_state) : nat :=
  length (List.filter is_run (journal st)).

(** ** Vocabulary of the further properties *)

(** The ranges [datetime.time] enforces on its fields. *)
Definition wf_time_of_day (t : time_of_day) : Prop :=
  (t_hour t < 24)%N /\ (t_minute t < 60)%N /\ (t_second t < 60)%N
  /\ (t_microsecond t < 1000000)%N.

(** The stamp without a time-zone suffix: date and time at second
    precision with dashes for the colons. *)
Definition spec_naive_stamp (d : datetime) : string :=
  zero_pad 4 (year d) +:+ "-" +:+ zero_pad 2 (month d) +:+ "-"
  +:+ zero_pad 2 (day d) +:+ "T"
  +:+ zero_pad 2 (hour d) +:+ "-" +:+ zero_pad 2 (minute d) +:+ "-"
  +:+ zero_pad 2 (second d).

(** The argument list a run uses when [extra_profiler_args] is [None] or
    empty. *)
Definition effective_extra (extra : option (list string)) : list string :=
  default [] extra.

(** The four calls of a run that ends with the stop token. *)
Definition stop_calls (run_length : timedelta) (p : string)
    (extra : option (list string)) : list event :=
  [EvPopen (profiler_argv run_length (Some p) (effective_extra extra));
   EvWait (total_seconds run_length + total_seconds PROFILER_OUTPUT_WAIT_TIMEOUT);
   EvPoll;
   EvCommunicate (Some PROFILER_FINISH_INPUT)
     (Some (total_seconds PROFILER_OUTPUT_WAIT_TIMEOUT))].

(** The four calls of a run that finds the subordinate gone. *)
Definition early_calls (run_length : timedelta) (p : string)
    (extra : option (list string)) : list event :=
  [EvPopen (profiler_argv run_length (Some p) (effective_extra extra));
   EvWait (total_seconds run_length + total_seconds PROFILER_OUTPUT_WAIT_TIMEOUT);
   EvPoll;
   EvCommunicate None None].

(** The outcomes [run_profiler] can have: the ways in which it can end
    (not coming back, [Diverge], is not an end). *)
Definition runner_outcome (o : outcome string) : Prop :=
  match o with
  | Ret _ => True
  | Exc (TypeError _) => True
  | Exc UnicodeDecodeError => True
  | Exc (RuntimeError m) => exists out err, m = early_message out err
  | Exc _ => False
  | Diverge => True
  end.

(** [s] ends with [suffix]. *)
Definition has_suffix (suffix s : string) : Prop :=
  exists pre, s = pre +:+ suffix.

(** What lines 128-133 derive from [--raw]. *)
Definition raw_extra (a : args) : list string :=
  if output_format_raw a then ["--raw"] else [].

Definition raw_extension (a : args) : string :=
  if output_format_raw a then "json" else "txt".

(** What holds of every journal entry that [main] adds: a run is for a
    window length in (0, LOGFILE_PERIOD] and every launch in it has the
    command line built from that length, the project and the raw flag; a
    written path ends with the extension of the output format. *)
Definition entry_ok (a : args) (j : journal_entry) : Prop :=
  match j with
  | JRun run_length calls =>
      0 < run_length <= LOGFILE_PERIOD
      /\ forall argv, In (EvPopen argv) calls ->
                      argv = profiler_argv run_length (fb_project a) (raw_extra a)
  | JWrite path _ => has_suffix ("." +:+ raw_extension a) path
  | JLog _ => True
  end.

(** The offset from midnight of the boundary that the window starting at
    [now] runs up to. *)
Definition window_end (now : datetime) : timedelta :=
  time_as_timedelta (datetime_time now) + window_length now.

(** The run of this pass ends with an exception. *)
Definition run_raises (fuel : nat) (a : args) (extra : list string)
    (env : cycle_env) : Prop :=
  exists e w,
    run_profiler fuel (window_length (env_utcnow env)) (fb_project a)
      (Some extra) (init_world (env_sub env) (env_clock env)) = (Exc e, w).

(** The error of [Popen] on an argument list that holds [None]. *)
Definition no_project_error : exn :=
  TypeError "expected str, bytes or os.PathLike object, not NoneType".

(* ===================================================================== *)
(** * Part II: properties                                                  *)
(* ===================================================================== *)

(** ** The interval scheduler *)

Lemma valid_period_nonzero p : valid_period p -> p <> 0.
Proof.
  intros [_ [k Hk]] ->. unfold td_hours in Hk. lia.
Qed.

Lemma valid_period_rem p : valid_period p -> td_hours 24 mod p = 0.
Proof.
  intros Hv. pose proof (valid_period_nonzero p Hv) as Hnz.
  destruct Hv as [_ Hd]. apply Z.mod_divide in Hd; auto.
Qed.

(** On a valid period both assertions pass and the function returns the
    period minus the offset's remainder. *)
Lemma get_time_valid t p :
  valid_period p ->
  get_time_until_next_interval_start t p
  = Ok (p - time_as_timedelta (datetime_time t) mod p).
Proof.
  intros Hv. unfold get_time_until_next_interval_start, td_mod, total_seconds.
  pose proof (valid_period_nonzero p Hv) as Hnz.
  pose proof (valid_period_rem p Hv) as Hrem.
  destruct Hv as [Hle _].
  apply Z.leb_le in Hle. rewrite Hle. cbn.
  apply Z.eqb_neq in Hnz. rewrite Hnz. cbn.
  rewrite Hrem. reflexivity.
Qed.


Lemma get_time_too_long t p :
  td_hours 24 < p ->
  get_time_until_next_interval_start t p = Raise AssertionError.
Proof.
  intros Hlt. unfold get_time_until_next_interval_start.
  apply Z.leb_gt in Hlt. rewrite Hlt. reflexivity.
Qed.

Lemma get_time_invalid t p :
  ~ valid_period p ->
  get_time_until_next_interval_start t p = Raise AssertionError
  \/ get_time_until_next_interval_start t p = Raise ZeroDivisionError.
Proof.
  intros Hnv. unfold get_time_until_next_interval_start, td_mod, total_seconds.
  destruct (p <=? td_hours 24) eqn:Hle; cbn; [ | now left ].
  destruct (p =? 0) eqn:Hz; cbn; [ now right | ].
  destruct (td_hours 24 mod p =? 0) eqn:Hr; cbn; [ | now left ].
  exfalso. apply Hnv. split.
  - now apply Z.leb_le.
  - apply Z.eqb_neq in Hz. apply Z.eqb_eq in Hr. now apply Z.mod_divide.
Qed.

(** C4 (as amended): on every valid period the function returns the period
    minus the time-of-day offset modulo the period; the result and that
    remainder add up to the period; at an exact boundary the whole period
    is returned and the result is never zero; and the result lies in
    (0, p] when the period is positive (in [p, 0) when it is negative). *)
Theorem next_interval_start_spec (t : datetime) (p : timedelta) :
  valid_period p ->
  let off := time_as_timedelta (datetime_time t) in
  exists r,
    get_time_until_next_interval_start t p = Ok r
    /\ r = p - off mod p
    /\ r + off mod p = p
    /\ (off mod p = 0 -> r = p)
    /\ r <> 0
    /\ (0 < p -> 0 < r <= p)
    /\ (p < 0 -> p <= r < 0).
Proof.
  intros Hv off. exists (p - off mod p).
  pose proof (valid_period_nonzero p Hv) as Hnz.
  split; [ now apply get_time_valid | ].
  split; [ reflexivity | ].
  split; [ lia | ].
  split; [ intros ->; lia | ].
  destruct (Z.lt_trichotomy p 0) as [Hneg | [Hz | Hpos]]; [ | contradiction | ].
  - pose proof (Z.mod_neg_bound off p Hneg). lia.
  - pose proof (Z.mod_pos_bound off p Hpos). lia.
Qed.

Lemma next_interval_start_spec_witness :
  exists r,
    get_time_until_next_interval_start
      (MkDatetime 2023 5 1 0 15 30 123456 utc) LOGFILE_PERIOD = Ok r
    /\ r = 869876544.
Proof.
  destruct (next_interval_start_spec
              (MkDatetime 2023 5 1 0 15 30 123456 utc) LOGFILE_PERIOD)
    as (r & Hr & Heq & _).
  - split; [ vm_compute; discriminate | exists 48; reflexivity ].
  - exists r. split; [ exact Hr | rewrite Heq; reflexivity ].
Defined.

(** C4 (as stated) fails: a period of minus one hour passes both
    assertions, and at 00:30 the result is minus thirty minutes, which is
    not in (0, p]. *)
Lemma next_interval_start_negative_period :
  (td_hours (-1) <= td_hours 24 /\ (td_hours (-1) | td_hours 24))
  /\ get_time_until_next_interval_start
       (MkDatetime 2023 5 1 0 30 0 0 utc) (td_hours (-1))
     = Ok (td_minutes (-30))
  /\ ~ (0 < td_minutes (-30) <= td_hours (-1)).
Proof.
  split; [ split | split ].
  - vm_compute; discriminate.
  - exists (-24). reflexivity.
  - reflexivity.
  - vm_compute. intros [H _]. discriminate H.
Qed.

(** C8: the function raises exactly when the period is not valid: an
    [AssertionError] for every period above 24 hours, an [AssertionError]
    or (for the zero period) a [ZeroDivisionError] for every period that
    does not divide 24 hours; and on a valid period no assertion fires. *)
Theorem interval_precondition_fails_fast (t : datetime) (p : timedelta) :
  (valid_period p -> exists r, get_time_until_next_interval_start t p = Ok r)
  /\ (~ valid_period p ->
      get_time_until_next_interval_start t p = Raise AssertionError
      \/ get_time_until_next_interval_start t p = Raise ZeroDivisionError)
  /\ (td_hours 24 < p ->
      get_time_until_next_interval_start t p = Raise AssertionError)
  /\ (p <= td_hours 24 -> ~ (p | td_hours 24) ->
      exists e, get_time_until_next_interval_start t p = Raise e).
Proof.
  split; [ | split; [ | split ] ].
  - intros Hv. eexists. now apply get_time_valid.
  - apply get_time_invalid.
  - apply get_time_too_long.
  - intros _ Hnd.
    destruct (get_time_invalid t p) as [H | H]; [ | eauto | eauto ].
    intros [_ Hd]. contradiction.
Qed.

Lemma interval_precondition_fails_fast_witness :
  (exists r,
      get_time_until_next_interval_start
        (MkDatetime 2023 5 1 0 15 30 123456 utc) LOGFILE_PERIOD = Ok r)
  /\ get_time_until_next_interval_start
       (MkDatetime 2023 5 1 0 15 30 123456 utc) (td_hours 25)
     = Raise AssertionError
  /\ (exists e,
      get_time_until_next_interval_start
        (MkDatetime 2023 5 1 0 15 30 123456 utc) (td_hours 7) = Raise e).
Proof.
  split; [ | split ].
  - apply (interval_precondition_fails_fast
             (MkDatetime 2023 5 1 0 15 30 123456 utc) LOGFILE_PERIOD).
    split; [ vm_compute; discriminate | exists 48; reflexivity ].
  - apply (interval_precondition_fails_fast
             (MkDatetime 2023 5 1 0 15 30 123456 utc) (td_hours 25)).
    reflexivity.
  - apply (interval_precondition_fails_fast
             (MkDatetime 2023 5 1 0 15 30 123456 utc) (td_hours 7)).
    + vm_compute; discriminate.
    + intros Hd. apply Z.mod_divide in Hd; vm_compute in Hd; discriminate.
Defined.

(** C10: the result (a duration or an exception) depends only on the hour,
    minute, second and microsecond of the datetime, for every period, valid
    or not; the date and the time zone play no part. *)
Theorem next_interval_start_time_of_day_only (t1 t2 : datetime) (p : timedelta) :
  hour t1 = hour t2 ->
  minute t1 = minute t2 ->
  second t1 = second t2 ->
  microsecond t1 = microsecond t2 ->
  get_time_until_next_interval_start t1 p
  = get_time_until_next_interval_start t2 p.
Proof.
  intros Hh Hm Hs Hu.
  unfold get_time_until_next_interval_start, datetime_time.
  now rewrite Hh, Hm, Hs, Hu.
Qed.

Lemma next_interval_start_time_of_day_only_witness :
  get_time_until_next_interval_start
    (MkDatetime 2023 5 1 7 15 30 250 utc) LOGFILE_PERIOD
  = get_time_until_next_interval_start
      (MkDatetime 1999 12 31 7 15 30 250 None) LOGFILE_PERIOD.
Proof.
  apply (next_interval_start_time_of_day_only
           (MkDatetime 2023 5 1 7 15 30 250 utc)
           (MkDatetime 1999 12 31 7 15 30 250 None) LOGFILE_PERIOD);
    reflexivity.
Defined.

(** ** The file-name formatter *)

Lemma append_cons (x : ascii) (a b : string) :
  String x a +:+ b = String x (a +:+ b).
Proof. reflexivity. Qed.

Lemma append_nil_l (b : string) : "" +:+ b = b.
Proof. reflexivity. Qed.

Lemma append_assoc (a b c : string) : (a +:+ b) +:+ c = a +:+ (b +:+ c).
Proof.
  induction a as [ | x a IH ]; [ reflexivity | ].
  rewrite !append_cons. now f_equal.
Qed.

Lemma append_empty_r (a : string) : a +:+ "" = a.
Proof.
  induction a as [ | x a IH ]; [ reflexivity | ].
  rewrite append_cons. now f_equal.
Qed.

Lemma string_forallb_app P (a b : string) :
  string_forallb P (a +:+ b) = string_forallb P a && string_forallb P b.
Proof.
  induction a as [ | x a IH ]; [ reflexivity | ].
  rewrite append_cons. simpl. rewrite IH. now rewrite andb_assoc.
Qed.

Lemma string_forallb_impl (P Q : ascii -> bool) (s : string) :
  (forall c, P c = true -> Q c = true) ->
  string_forallb P s = true -> string_forallb Q s = true.
Proof.
  intros HPQ. induction s as [ | x s IH ]; simpl; [ reflexivity | ].
  intros H. apply andb_true_iff in H as [Hx Hs].
  rewrite (HPQ x Hx). now apply IH.
Qed.

Lemma digits_of_uint (u : Decimal.uint) :
  string_forallb is_digit (NilEmpty.string_of_uint u) = true.
Proof. induction u; simpl; auto. Qed.

Lemma digits_zeros (k : nat) : string_forallb is_digit (zeros k) = true.
Proof. induction k; simpl; auto. Qed.

Lemma digits_zero_pad (w : nat) (n : N) :
  string_forallb is_digit (zero_pad w n) = true.
Proof.
  unfold zero_pad, str_of_N. rewrite string_forallb_app.
  now rewrite digits_zeros, digits_of_uint.
Qed.

Lemma lacks_digits (c : ascii) (s : string) :
  is_digit c = false -> string_forallb is_digit s = true -> lacks c s = true.
Proof.
  intros Hc. apply string_forallb_impl. intros x Hx.
  destruct (Ascii.eqb x c) eqn:E; [ | reflexivity ].
  apply Ascii.eqb_eq in E. congruence.
Qed.

Lemma lacks_zero_pad (c : ascii) (w : nat) (n : N) :
  is_digit c = false -> lacks c (zero_pad w n) = true.
Proof. intros Hc. apply lacks_digits; [ exact Hc | apply digits_zero_pad ]. Qed.

Lemma lacks_app (c : ascii) (a b : string) :
  lacks c a = true -> lacks c b = true -> lacks c (a +:+ b) = true.
Proof.
  unfold lacks. intros Ha Hb. now rewrite string_forallb_app, Ha, Hb.
Qed.

Lemma prefix_head_differs (c x : ascii) (old rest : string) :
  Ascii.eqb x c = false -> String.prefix (String c old) (String x rest) = false.
Proof.
  intros Hne. simpl. destruct (ascii_dec c x) as [-> | ]; [ | reflexivity ].
  now rewrite Ascii.eqb_refl in Hne.
Qed.

Lemma prefix_nil (s : string) : String.prefix "" s = true.
Proof. destruct s; reflexivity. Qed.

(** A stretch without the first character of [old] is copied unchanged. *)
Lemma replace_from_passes (c : ascii) (old new a b : string) :
  lacks c a = true ->
  replace_from (String c old) new 0 (a +:+ b)
  = a +:+ replace_from (String c old) new 0 b.
Proof.
  induction a as [ | x a IH ]; [ reflexivity | ].
  unfold lacks. simpl string_forallb. intros H.
  apply andb_true_iff in H as [Hx Ha]. apply negb_true_iff in Hx.
  rewrite !append_cons.
  cbn [replace_from]. rewrite (prefix_head_differs c x old (a +:+ b) Hx).
  f_equal. now apply IH.
Qed.

Lemma replace_from_absent (c : ascii) (old new a : string) :
  lacks c a = true -> replace_from (String c old) new 0 a = a.
Proof.
  intros H. rewrite <- (append_empty_r a) at 1.
  rewrite replace_from_passes by exact H. simpl. apply append_empty_r.
Qed.

(** Replacing a one-character [old] works character by character. *)
Lemma replace_char_app (c : ascii) (new a b : string) :
  replace_from (String c "") new 0 (a +:+ b)
  = replace_from (String c "") new 0 a +:+ replace_from (String c "") new 0 b.
Proof.
  induction a as [ | x a IH ]; [ reflexivity | ].
  rewrite append_cons.
  cbn [replace_from String.length Nat.sub String.prefix].
  destruct (ascii_dec c x).
  - rewrite !prefix_nil, IH. now rewrite append_assoc.
  - rewrite append_cons. now rewrite IH.
Qed.

Ltac lacks_tac :=
  repeat first
    [ apply lacks_zero_pad; reflexivity
    | reflexivity
    | apply lacks_app ].

Lemma format_datetime_for_filename_stamp (d : datetime) :
  tzinfo d = utc -> format_datetime_for_filename d = spec_filename_stamp d.
Proof.
  intros Htz.
  unfold format_datetime_for_filename, isoformat, spec_filename_stamp,
    format_time, str_replace.
  cbn [replace_microsecond year month day hour minute second microsecond tzinfo].
  rewrite Htz. change (format_offset utc) with "+00:00"%string.
  change (if N.eqb 0 0 then ""%string else ?x) with ""%string.
  rewrite !replace_from_passes by lacks_tac.
  change (replace_from "+00:00" "Z" 0 "+00:00") with "Z"%string.
  rewrite !replace_char_app.
  rewrite !(replace_from_absent ":" "" "-" (zero_pad _ _))
    by (apply lacks_zero_pad; reflexivity).
  simpl replace_from.
  now rewrite !append_assoc, append_nil_l.
Qed.

(** C5: for every UTC datetime the formatter yields the ISO-8601 rendering
    at second precision with dashes for colons and [Z] for the [+00:00]
    offset; and 2023-05-01T00:15:30.123456+00:00 gives
    2023-05-01T00-15-30Z. *)
Theorem format_datetime_for_filename_spec :
  (forall d : datetime,
      tzinfo d = utc -> format_datetime_for_filename d = spec_filename_stamp d)
  /\ format_datetime_for_filename (MkDatetime 2023 5 1 0 15 30 123456 utc)
     = "2023-05-01T00-15-30Z"%string.
Proof.
  split.
  - apply format_datetime_for_filename_stamp.
  - vm_compute. reflexivity.
Qed.

Lemma format_datetime_for_filename_spec_witness :
  format_datetime_for_filename (MkDatetime 1999 12 31 23 59 59 999999 utc)
  = "1999-12-31T23-59-59Z"%string.
Proof.
  rewrite (proj1 format_datetime_for_filename_spec
             (MkDatetime 1999 12 31 23 59 59 999999 utc) eq_refl).
  vm_compute. reflexivity.
Defined.

(** ** The process terminator *)

(** The loop condition of line 27 cannot be evaluated: its right-hand side
    adds a timedelta to a float. *)
Lemma grace_loop_raises (t : pyfloat) (fuel : nat) (w : world) :
  grace_loop (PyFloat t) fuel w
  = (Exc float_plus_timedelta, record_event EvTime w).
Proof. destruct fuel; reflexivity. Qed.

Lemma end_process_raises (fuel : nat) (w : world) :
  end_process fuel w
  = (Exc float_plus_timedelta,
     record_event EvTime
       (schedule_exit (term_latency (sub w))
          (record_event EvTerminate (record_event EvTime w)))).
Proof.
  unfold end_process. unfold mbind, M_bind, m_bind at 1.
  unfold time_time at 1. cbv beta iota.
  unfold m_bind at 1. unfold terminate. cbv beta iota zeta.
  unfold m_bind. rewrite grace_loop_raises. reflexivity.
Qed.

Lemma schedule_exit_trace lat w : trace (schedule_exit lat w) = trace w.
Proof.
  unfold schedule_exit. destruct (has_exited w); [ reflexivity | ].
  destruct lat; [ | reflexivity ]. destruct (exit_at w); reflexivity.
Qed.

Lemma schedule_exit_clock lat w : clock (schedule_exit lat w) = clock w.
Proof.
  unfold schedule_exit. destruct (has_exited w); [ reflexivity | ].
  destruct lat; [ | reflexivity ]. destruct (exit_at w); reflexivity.
Qed.

Lemma schedule_exit_sub lat w : sub (schedule_exit lat w) = sub w.
Proof.
  unfold schedule_exit. destruct (has_exited w); [ reflexivity | ].
  destruct lat; [ | reflexivity ]. destruct (exit_at w); reflexivity.
Qed.

(** C9: whatever the process and its state, [end_process] reads the clock,
    sends the termination request, reads the clock again for the loop
    condition and raises the type error of float plus timedelta; it makes
    no poll, sends no kill and never returns normally. *)
Theorem end_process_always_type_error (fuel : nat) (w : world) :
  exists w',
    end_process fuel w = (Exc float_plus_timedelta, w')
    /\ trace w' = trace w ++ [EvTime; EvTerminate; EvTime]
    /\ count_event is_poll (trace w') = count_event is_poll (trace w)
    /\ count_event is_kill (trace w') = count_event is_kill (trace w)
    /\ clock w' = clock w
    /\ (forall u, end_process fuel w <> (Ret u, w')).
Proof.
  eexists. split; [ apply end_process_raises | ].
  assert (Htr : trace (record_event EvTime
                  (schedule_exit (term_latency (sub w))
                     (record_event EvTerminate (record_event EvTime w))))
                = trace w ++ [EvTime; EvTerminate; EvTime]).
  { cbn [record_event trace]. rewrite schedule_exit_trace.
    cbn [record_event trace]. now rewrite <- !app_assoc. }
  split; [ exact Htr | ].
  rewrite Htr. unfold count_event. rewrite !List.filter_app, !length_app.
  cbn [List.filter is_poll is_kill length].
  split; [ lia | ]. split; [ lia | ].
  split.
  - cbn [record_event clock]. now rewrite schedule_exit_clock.
  - intros u. rewrite end_process_raises. discriminate.
Qed.

(** C1 (the code departs from it): on a live process that ignores SIGTERM,
    where a forced kill is due after the grace period, [end_process] sends
    no kill and leaves by the type error while the process is still alive;
    on a process that would exit one second after SIGTERM it does not
    return normally either, and leaves before that exit. *)
Theorem end_process_leaves_process_alive :
  (exists w',
      end_process 100 (launched stubborn 0) = (Exc float_plus_timedelta, w')
      /\ count_event is_kill (trace w') = 0%nat
      /\ has_exited w' = false)
  /\ (exists w',
      end_process 100 (launched compliant 0) = (Exc float_plus_timedelta, w')
      /\ exit_at w' = Some (td_seconds 1)
      /\ has_exited w' = false).
Proof.
  split; eexists; (split; [ vm_compute; reflexivity | ]);
    split; vm_compute; reflexivity.
Qed.

(** The two polling tests of lines 28 and 34 read [poll()] the wrong way
    round: [poll()] is [None] while the process is alive.  So the last
    loop, taken on its own, returns at once on a live process and never
    returns on a dead one. *)
Lemma kill_wait_loop_alive (fuel : nat) (w : world) :
  has_exited w = false ->
  kill_wait_loop fuel w = (Ret tt, record_event EvPoll w).
Proof.
  intros Hx. destruct fuel; unfold kill_wait_loop, mbind, M_bind, m_bind, poll;
    change (has_exited (record_event EvPoll w)) with (has_exited w);
    now rewrite Hx.
Qed.

Lemma has_exited_later (w : world) (d : Z) :
  has_exited w = true ->
  has_exited (set_clock (clock w + Z.max 0 d) w) = true.
Proof.
  unfold has_exited. cbn [set_clock exit_at clock].
  destruct (exit_at w) as [e | ]; [ | discriminate ].
  intros H. apply Z.leb_le in H. apply Z.leb_le. lia.
Qed.

Lemma kill_wait_loop_dead (fuel : nat) : forall w : world,
  has_exited w = true -> fst (kill_wait_loop fuel w) = Diverge.
Proof.
  induction fuel as [ | f IH ]; intros w Hx.
  - unfold kill_wait_loop, mbind, M_bind, m_bind, poll.
    change (has_exited (record_event EvPoll w)) with (has_exited w).
    now rewrite Hx.
  - cbn [kill_wait_loop]. unfold mbind, M_bind. unfold m_bind at 1. unfold poll.
    change (has_exited (record_event EvPoll w)) with (has_exited w).
    rewrite Hx. unfold m_bind at 1. unfold time_sleep.
    apply IH.
    apply (has_exited_later (record_event (EvSleep _) (record_event EvPoll w))).
    exact Hx.
Qed.

(** ** The profiling runner *)

(** C2 (the code departs from it): when the subordinate ignores the stop
    token, [run_profiler] calls [end_process], which sends SIGTERM only;
    the runner then leaves by the type error of [end_process], not by the
    run error of line 100, with no kill sent and the process still alive. *)
Theorem run_profiler_unresponsive_not_confirmed_dead :
  exists w',
    run_profiler 100 (td_minutes 30) (Some "demo") None (init_world stubborn 0)
    = (Exc float_plus_timedelta, w')
    /\ trace w'
       = [EvPopen (profiler_argv (td_minutes 30) (Some "demo") []);
          EvWait (td_minutes 30 + td_seconds 30); EvPoll;
          EvCommunicate (Some PROFILER_FINISH_INPUT) (Some (td_seconds 30));
          EvTime; EvTerminate; EvTime]
    /\ count_event is_kill (trace w') = 0%nat
    /\ has_exited w' = false.
Proof.
  eexists. split; [ vm_compute; reflexivity | ].
  split; [ | split ]; vm_compute; reflexivity.
Qed.

Lemma profiler_argv_no_none rl p extra :
  existsb (fun a => match a with ArgNone => true | _ => false end)
    (profiler_argv rl (Some p) extra) = false.
Proof.
  unfold profiler_argv. rewrite existsb_app. cbn [existsb orb].
  induction extra as [ | x l IH ]; [ reflexivity | exact IH ].
Qed.

Ltac world_simpl :=
  cbn [record_event init_world set_exit_at set_natural_at set_clock close_stdin
       sub clock exit_at natural_at stdin_open trace option_map fst snd].

(** The run when the subordinate is gone by the end of the bounded wait:
    the plain [communicate()] of line 91 comes back once the pipes are
    released, and never if they are not. *)
Lemma run_profiler_early_outcome fuel rl p extra s t0 :
  exits_within s (total_seconds rl + total_seconds PROFILER_OUTPUT_WAIT_TIMEOUT) ->
  fst (run_profiler fuel rl (Some p) extra (init_world s t0))
  = match orphan_linger s with
    | None => Diverge
    | Some _ =>
        match decode_utf8 (sub_stdout s), decode_utf8 (sub_stderr s) with
        | Ok out, Ok err => Exc (RuntimeError (early_message out err))
        | _, _ => Exc UnicodeDecodeError
        end
    end.
Proof.
  unfold exits_within. destruct (natural_exit s) as [e | ] eqn:He; [ | tauto ].
  intros Hle.
  unfold run_profiler.
  set (ex := match extra with Some (x :: l) => x :: l | _ => [] end).
  set (T := total_seconds rl + total_seconds PROFILER_OUTPUT_WAIT_TIMEOUT) in *.
  unfold mbind, M_bind. unfold m_bind at 1. unfold popen.
  rewrite profiler_argv_no_none. world_simpl. rewrite He. world_simpl.
  unfold m_bind at 1. unfold try_timeout, wait, await_exit, await_until, within.
  world_simpl.
  assert (H1 : (t0 + Z.max 0 e <=? t0) || (t0 + Z.max 0 e <=? t0 + T) = true).
  { apply orb_true_iff. right. apply Z.leb_le. lia. }
  rewrite H1.
  unfold m_bind at 1. unfold poll, has_exited. world_simpl.
  assert (H2 : (t0 + Z.max 0 e <=? Z.max t0 (t0 + Z.max 0 e)) = true).
  { apply Z.leb_le. lia. }
  rewrite H2.
  unfold m_bind at 1.
  unfold communicate, await_output, await_until, output_complete_at, within.
  world_simpl. rewrite Z.eqb_refl.
  destruct (orphan_linger s) as [g | ]; world_simpl; [ | reflexivity ].
  unfold lift.
  destruct (decode_utf8 (sub_stdout s)) as [out | e1] eqn:Ho.
  - unfold m_bind at 1. unfold m_ret at 1.
    destruct (decode_utf8 (sub_stderr s)) as [err | e2] eqn:Hr.
    + reflexivity.
    + unfold decode_utf8 in Hr. destruct (utf8_valid _); [ discriminate | ].
      injection Hr as <-. reflexivity.
  - unfold decode_utf8 in Ho. destruct (utf8_valid _); [ discriminate | ].
    injection Ho as <-. reflexivity.
Qed.

(** Whenever the subordinate neither exits on its own nor within the
    time-out after the stop token, the runner ends in the type error of
    [end_process]. *)
Lemma run_profiler_unresponsive_outcome fuel rl p extra s t0 :
  natural_exit s = None ->
  (forall l, stop_latency s = Some l ->
             total_seconds PROFILER_OUTPUT_WAIT_TIMEOUT < l) ->
  fst (run_profiler fuel rl (Some p) extra (init_world s t0))
  = Exc float_plus_timedelta.
Proof.
  intros Hn Hstop.
  unfold run_profiler.
  set (ex := match extra with Some (x :: l) => x :: l | _ => [] end).
  set (T := total_seconds rl + total_seconds PROFILER_OUTPUT_WAIT_TIMEOUT) in *.
  unfold mbind, M_bind. unfold m_bind at 1. unfold popen.
  rewrite profiler_argv_no_none. world_simpl. rewrite Hn. world_simpl.
  unfold m_bind at 1. unfold try_timeout, wait, await_exit, await_until, within.
  world_simpl. unfold mret, M_ret, m_ret.
  unfold m_bind at 1. unfold poll, has_exited. world_simpl.
  unfold m_bind at 1.
  unfold communicate at 1. world_simpl.
  unfold schedule_exit, has_exited. world_simpl.
  set (O := total_seconds PROFILER_OUTPUT_WAIT_TIMEOUT) in *.
  destruct (stop_latency s) as [l | ] eqn:Hl.
  - specialize (Hstop l eq_refl).
    unfold await_output, await_until, output_complete_at, within. world_simpl.
    assert (H1 : (t0 + Z.max 0 T + Z.max 0 l <=? t0 + Z.max 0 T)
                 || (t0 + Z.max 0 T + Z.max 0 l <=? t0 + Z.max 0 T + O) = false).
    { apply orb_false_iff. split; apply Z.leb_gt; unfold O, total_seconds,
        PROFILER_OUTPUT_WAIT_TIMEOUT, td_seconds in *; lia. }
    rewrite H1. unfold m_bind at 1. rewrite end_process_raises. reflexivity.
  - unfold await_output, await_until, output_complete_at. world_simpl.
    unfold m_bind at 1. rewrite end_process_raises. reflexivity.
Qed.





Lemma run_profiler_no_project fuel rl extra w :
  run_profiler fuel rl None extra w
  = (Exc (TypeError "expected str, bytes or os.PathLike object, not NoneType"), w).
Proof. reflexivity. Qed.

Lemma end_process_no_return fuel w u w' : end_process fuel w <> (Ret u, w').
Proof. rewrite end_process_raises. discriminate. Qed.

Lemma has_exited_schedule lat w :
  has_exited w = true -> schedule_exit lat w = w.
Proof. unfold schedule_exit. now intros ->. Qed.

(** ** The control loop *)

Lemma valid_logfile_period : valid_period LOGFILE_PERIOD.
Proof. split; [ vm_compute; discriminate | exists 48; reflexivity ]. Qed.

Lemma get_time_logfile (now : datetime) :
  get_time_until_next_interval_start (replace_tzinfo now utc) LOGFILE_PERIOD
  = Ok (window_length now).
Proof. apply get_time_valid, valid_logfile_period. Qed.

Lemma stamp_of_start (now : datetime) :
  format_datetime_for_filename (replace_tzinfo now utc) = spec_filename_stamp now.
Proof. now rewrite format_datetime_for_filename_stamp. Qed.

(** One pass, by the outcome of the runner and of the file write. *)
Lemma loop_body_cases fuel a extra ext env st :
  loop_body fuel a extra ext env st
  = match run_profiler fuel (window_length (env_utcnow env)) (fb_project a)
            (Some extra) (init_world (env_sub env) (env_clock env)) with
    | (Exc e, w) =>
        Ret {| journal := journal st
                          ++ failure_entries (env_utcnow env) (trace w) e |}
    | (Diverge, _) => Diverge
    | (Ret data, w) =>
        let path :=
          path_join (output_folder a)
            (render_project (fb_project a) +:+ "-"
             +:+ spec_filename_stamp (env_utcnow env) +:+ "." +:+ ext) in
        match env_open env with
        | Some e => Exc e
        | None =>
            Ret {| journal := journal st
                              ++ success_entries (env_utcnow env) (trace w)
                                   path data |}
        end
    end.
Proof.
  unfold loop_body. rewrite get_time_logfile.
  destruct (run_profiler _ _ _ _ _) as [[data | e | ] w]; [ | | reflexivity ].
  - unfold output_filename. rewrite stamp_of_start.
    destruct (env_open env); [ reflexivity | ].
    unfold write_file, note, success_entries. cbn [journal].
    now rewrite <- !app_assoc.
  - unfold note, failure_entries. cbn [journal].
    now rewrite <- !app_assoc.
Qed.

Lemma lacks_no_prefix (c : ascii) (s : string) :
  lacks c s = true -> String.prefix (String c "") s = false.
Proof.
  destruct s as [ | x s ]; [ reflexivity | ].
  unfold lacks. cbn [string_forallb String.prefix]. intros H.
  apply andb_true_iff in H as [Hx _]. apply negb_true_iff in Hx.
  destruct (ascii_dec c x) as [-> | ]; [ | reflexivity ].
  now rewrite Ascii.eqb_refl in Hx.
Qed.

Lemma lacks_slash_stamp (now : datetime) :
  lacks "/" (spec_filename_stamp now) = true.
Proof. unfold spec_filename_stamp. lacks_tac. Qed.

(** A name without a slash is joined to the folder as its last component. *)
Lemma path_join_component (folder name : string) :
  lacks "/" name = true -> path_join folder name = dir_prefix folder +:+ name.
Proof.
  intros Hn. unfold path_join, dir_prefix.
  rewrite (lacks_no_prefix "/" name Hn).
  destruct (String.eqb folder "" || ends_with_sep folder);
    [ reflexivity | now rewrite append_assoc ].
Qed.

(** C6 (as amended): when the runner returns a text, the pass tries exactly
    one file write, of the returned text unchanged, to [os.path.join] of
    the output folder and a name made of the project and the start time
    read before the run.  If the file can be opened and written, exactly
    one file is written; if not, the exception leaves the loop.  The file
    is an entry of the output folder itself whenever neither the project
    name nor the extension contains a slash. *)
Theorem loop_body_success fuel a extra ext env st data w :
  run_profiler fuel (window_length (env_utcnow env)) (fb_project a)
    (Some extra) (init_world (env_sub env) (env_clock env)) = (Ret data, w) ->
  exists p name path,
    fb_project a = Some p
    /\ name = p +:+ "-" +:+ spec_filename_stamp (env_utcnow env) +:+ "." +:+ ext
    /\ path = path_join (output_folder a) name
    /\ (env_open env = None ->
        loop_body fuel a extra ext env st
        = Ret {| journal := journal st
                            ++ success_entries (env_utcnow env) (trace w) path data |}
        /\ List.filter is_write
             (success_entries (env_utcnow env) (trace w) path data)
           = [JWrite path data])
    /\ (forall e, env_open env = Some e ->
                  loop_body fuel a extra ext env st = Exc e)
    /\ (lacks "/" p = true -> lacks "/" ext = true ->
        path = dir_prefix (output_folder a) +:+ name
        /\ lacks "/" name = true).
Proof.
  intros Hrun. destruct (fb_project a) as [p | ] eqn:Hp.
  2: { rewrite run_profiler_no_project in Hrun. discriminate. }
  exists p. eexists. eexists. split; [ reflexivity | ].
  split; [ reflexivity | ]. split; [ reflexivity | ].
  split; [ | split ].
  - intros Hopen. rewrite loop_body_cases, Hp, Hrun, Hopen. split; reflexivity.
  - intros e Hopen. rewrite loop_body_cases, Hp, Hrun, Hopen. reflexivity.
  - intros Hproj Hext.
    assert (Hname : lacks "/" (p +:+ "-" +:+ spec_filename_stamp (env_utcnow env)
                               +:+ "." +:+ ext) = true).
    { repeat first [ assumption | apply lacks_slash_stamp | reflexivity
                   | apply lacks_app ]. }
    split; [ now apply path_join_component | exact Hname ].
Qed.

Lemma loop_body_success_witness :
  loop_body 100 sample_args [] "txt" sample_env empty_state
  = Ret {| journal :=
             success_entries sample_now
               (stop_calls (window_length sample_now) "demo" (Some []))
               "/home/u/logs/demo-2023-05-01T00-15-30Z.txt" "report" |}.
Proof.
  edestruct (loop_body_success 100 sample_args [] "txt" sample_env empty_state
               "report")
    as (p & name & path & Hp & Hname & Hpath & Hok & _).
  - vm_compute. reflexivity.
  - destruct (Hok eq_refl) as [Hbody _]. rewrite Hbody.
    injection Hp as <-. subst name. rewrite Hpath. vm_compute. reflexivity.
Defined.

(** C6 (as stated) fails: with a project name that begins with a slash,
    [os.path.join] drops the output folder, and the one file of a
    successful pass is written outside it. *)
Lemma loop_body_success_outside_folder :
  exists st',
    loop_body 100 misdirected_args [] "txt" sample_env empty_state = Ret st'
    /\ List.filter is_write (journal st')
       = [JWrite "/srv/demo-2023-05-01T00-15-30Z.txt" "report"]
    /\ String.prefix (output_folder misdirected_args)
         "/srv/demo-2023-05-01T00-15-30Z.txt" = false.
Proof.
  eexists. split; [ rewrite loop_body_cases; vm_compute; reflexivity | ].
  split; vm_compute; reflexivity.
Qed.

Lemma loop_body_failed fuel a extra ext env st e w :
  run_profiler fuel (window_length (env_utcnow env)) (fb_project a)
    (Some extra) (init_world (env_sub env) (env_clock env)) = (Exc e, w) ->
  loop_body fuel a extra ext env st
  = Ret {| journal := journal st ++ failure_entries (env_utcnow env) (trace w) e |}.
Proof. intros Hrun. now rewrite loop_body_cases, Hrun. Qed.

(** Over passes whose runs all raise, the loop completes every pass. *)
Lemma main_loop_failed fuel a extra ext envs : forall st,
  Forall (run_raises fuel a extra) envs ->
  exists st',
    main_loop fuel a extra ext envs st = Ret st'
    /\ count_runs st' = (count_runs st + length envs)%nat
    /\ List.filter is_write (journal st') = List.filter is_write (journal st).
Proof.
  induction envs as [ | env rest IH ]; intros st Hall.
  - exists st. split; [ reflexivity | ]. split; [ cbn; lia | reflexivity ].
  - apply Forall_cons in Hall as [(e & w & Hrun) Hrest].
    destruct (IH {| journal := journal st
                               ++ failure_entries (env_utcnow env) (trace w) e |}
                 Hrest)
      as (st' & Hloop & Hcount & Hwrites).
    exists st'. cbn [main_loop]. rewrite (loop_body_failed _ _ _ _ _ _ _ _ Hrun).
    split; [ exact Hloop | ].
    unfold count_runs in *. cbn [journal] in *.
    rewrite List.filter_app, ?length_app in *. cbn in *.
    split; [ lia | ]. rewrite Hwrites. apply app_nil_r.
Qed.

(** While the time of day moves on within a window, the boundary aimed at
    stays the same. *)
Lemma window_end_within (now next : datetime) (d : Z) :
  0 <= d < window_length now ->
  time_as_timedelta (datetime_time next)
  = time_as_timedelta (datetime_time now) + d ->
  window_end next = window_end now.
Proof.
  unfold window_end, window_length. intros Hd Hoff. rewrite Hoff.
  set (off := time_as_timedelta (datetime_time now)) in *.
  assert (Hpos : 0 < LOGFILE_PERIOD) by reflexivity.
  pose proof (Z.mod_pos_bound off LOGFILE_PERIOD Hpos) as Hm.
  assert (Hmod : (off + d) mod LOGFILE_PERIOD = off mod LOGFILE_PERIOD + d).
  { symmetry. apply (Z.mod_unique_pos _ _ (off / LOGFILE_PERIOD)); [ lia | ].
    pose proof (Z.div_mod off LOGFILE_PERIOD ltac:(lia)). lia. }
  lia.
Qed.

(** C7 (as amended): when the runner raises, the pass writes no file, logs
    the error and hands over at once to the next pass, which computes its
    window from its own reading of the clock; no exception of the runner
    leaves the loop: over any passes whose runs all raise, every pass
    completes, with one run each and no write.  The failed window is not
    given up, though: as long as the next reading lies in the same grid
    window, the next run is for the rest of that window, up to the same
    boundary. *)
Theorem loop_survives_failed_cycles fuel a extra ext :
  (forall env st e w,
      run_profiler fuel (window_length (env_utcnow env)) (fb_project a)
        (Some extra) (init_world (env_sub env) (env_clock env)) = (Exc e, w) ->
      exists st',
        loop_body fuel a extra ext env st = Ret st'
        /\ journal st' = journal st ++ failure_entries (env_utcnow env) (trace w) e
        /\ List.filter is_write (failure_entries (env_utcnow env) (trace w) e) = []
        /\ In (JLog (ErrorRecord e)) (journal st')
        /\ (forall rest,
              main_loop fuel a extra ext (env :: rest) st
              = main_loop fuel a extra ext rest st'))
  /\ (forall envs st,
        Forall (run_raises fuel a extra) envs ->
        exists st',
          main_loop fuel a extra ext envs st = Ret st'
          /\ count_runs st' = (count_runs st + length envs)%nat
          /\ List.filter is_write (journal st')
             = List.filter is_write (journal st))
  /\ (forall env next d,
        0 <= d < window_length (env_utcnow env) ->
        time_as_timedelta (datetime_time (env_utcnow next))
        = time_as_timedelta (datetime_time (env_utcnow env)) + d ->
        window_end (env_utcnow next) = window_end (env_utcnow env)).
Proof.
  split; [ | split ].
  - intros env st e w Hrun. eexists.
    split; [ apply (loop_body_failed _ _ _ _ _ _ _ _ Hrun) | ].
    cbn [journal].
    split; [ reflexivity | ]. split; [ reflexivity | ].
    split.
    + apply in_or_app. right. unfold failure_entries. cbn. auto.
    + intros rest. cbn [main_loop].
      now rewrite (loop_body_failed _ _ _ _ _ _ _ _ Hrun).
  - intros envs st. apply main_loop_failed.
  - intros env next d. apply window_end_within.
Qed.

Lemma loop_survives_failed_cycles_witness :
  exists st',
    loop_body 100 sample_args [] "txt" failing_env empty_state = Ret st'
    /\ main_loop 100 sample_args [] "txt" [failing_env; retry_env] empty_state
       = main_loop 100 sample_args [] "txt" [retry_env] st'
    /\ window_end (env_utcnow retry_env) = window_end (env_utcnow failing_env).
Proof.
  edestruct (proj1 (loop_survives_failed_cycles 100 sample_args [] "txt")
               failing_env empty_state)
    as (st' & Hbody & _ & _ & _ & Hnext).
  - vm_compute. reflexivity.
  - exists st'. split; [ exact Hbody | ]. split; [ apply Hnext | ].
    apply (proj2 (proj2 (loop_survives_failed_cycles 100 sample_args [] "txt"))
             failing_env retry_env (td_seconds 1)).
    + split; [ vm_compute; discriminate | reflexivity ].
    + reflexivity.
Defined.

(** C7 (as stated) fails on "never retries the failed window": a pass
    that fails at 00:15:30 is followed, one second later, by a pass that
    runs for the same window, the one that ends at 00:30. *)
Lemma loop_retries_failed_window :
  window_end (env_utcnow failing_env) = td_minutes 30
  /\ window_end (env_utcnow retry_env) = td_minutes 30
  /\ exists st' calls1 calls2,
       main_loop 0 sample_args [] "txt" [failing_env; retry_env] empty_state
       = Ret st'
       /\ List.filter is_run (journal st')
          = [JRun 869876544 calls1; JRun 868876544 calls2]
       /\ In (JLog (ErrorRecord
                      (RuntimeError (early_message "usage" "no such project"))))
            (journal st').
Proof.
  split; [ reflexivity | ]. split; [ reflexivity | ].
  eexists. eexists. eexists.
  split; [ vm_compute; reflexivity | ].
  split; [ vm_compute; reflexivity | ].
  vm_compute. auto 10.
Qed.

(* ===================================================================== *)
(** * Part III: further properties of the code                             *)
(* ===================================================================== *)

(** ** More on the interval scheduler *)

Lemma offset_nonneg (t : time_of_day) : 0 <= time_as_timedelta t.
Proof.
  unfold time_as_timedelta, mk_timedelta, td_seconds, td_microseconds. lia.
Qed.

Lemma offset_below_day (t : time_of_day) :
  wf_time_of_day t -> time_as_timedelta t < td_hours 24.
Proof.
  intros (Hh & Hm & Hs & Hu).
  unfold time_as_timedelta, mk_timedelta, td_seconds, td_microseconds, td_hours.
  lia.
Qed.

Lemma boundary_multiple (off p : Z) :
  p <> 0 -> off + (p - off mod p) = p * (off / p + 1).
Proof. intros Hp. pose proof (Z.div_mod off p Hp). lia. Qed.

(** X1: on a valid period the returned duration leads exactly to a grid
    boundary: the time-of-day offset plus the result is a multiple of the
    period. *)
Theorem next_interval_start_lands_on_grid (t : datetime) (p : timedelta) :
  valid_period p ->
  exists r,
    get_time_until_next_interval_start t p = Ok r
    /\ (time_as_timedelta (datetime_time t) + r) mod p = 0
    /\ (p | time_as_timedelta (datetime_time t) + r).
Proof.
  intros Hv. pose proof (valid_period_nonzero p Hv) as Hnz.
  eexists. split; [ now apply get_time_valid | ].
  rewrite boundary_multiple by exact Hnz. split.
  - rewrite Z.mul_comm. now apply Z.mod_mul.
  - eexists. apply Z.mul_comm.
Qed.

Lemma next_interval_start_lands_on_grid_witness :
  exists r,
    get_time_until_next_interval_start
      (MkDatetime 2023 5 1 7 15 30 250 utc) LOGFILE_PERIOD = Ok r
    /\ (time_as_timedelta (MkTime 7 15 30 250) + r) mod LOGFILE_PERIOD = 0.
Proof.
  destruct (next_interval_start_lands_on_grid
              (MkDatetime 2023 5 1 7 15 30 250 utc) LOGFILE_PERIOD)
    as (r & Hr & Hmod & _).
  - split; [ vm_compute; discriminate | exists 48; reflexivity ].
  - exists r. split; [ exact Hr | exact Hmod ].
Defined.

(** X2: for a positive valid period and a time of day within the ranges
    Python enforces, the run window never crosses midnight: offset plus
    result is at most 24 hours. *)
Theorem next_interval_start_stays_in_day (t : datetime) (p : timedelta) :
  valid_period p ->
  0 < p ->
  wf_time_of_day (datetime_time t) ->
  exists r,
    get_time_until_next_interval_start t p = Ok r
    /\ time_as_timedelta (datetime_time t) + r <= td_hours 24.
Proof.
  intros Hv Hpos Hwf. pose proof (valid_period_nonzero p Hv) as Hnz.
  eexists. split; [ now apply get_time_valid | ].
  rewrite boundary_multiple by exact Hnz.
  pose proof (offset_below_day _ Hwf) as Hlt.
  pose proof (offset_nonneg (datetime_time t)) as Hge.
  destruct Hv as [_ [k Hk]]. set (off := time_as_timedelta (datetime_time t)) in *.
  rewrite Hk in *.
  assert (Hq : off / p < k).
  { apply Z.div_lt_upper_bound; [ exact Hpos | lia ]. }
  nia.
Qed.

Lemma next_interval_start_stays_in_day_witness :
  exists r,
    get_time_until_next_interval_start
      (MkDatetime 2023 5 1 23 59 59 999999 utc) LOGFILE_PERIOD = Ok r
    /\ time_as_timedelta (MkTime 23 59 59 999999) + r <= td_hours 24.
Proof.
  apply (next_interval_start_stays_in_day
           (MkDatetime 2023 5 1 23 59 59 999999 utc) LOGFILE_PERIOD).
  - split; [ vm_compute; discriminate | exists 48; reflexivity ].
  - reflexivity.
  - repeat split.
Defined.

(** X3: within one window the result counts down: if the time of day
    moves on by [d], with [d] less than the time that was left, the time
    left shrinks by exactly [d]. *)
Theorem next_interval_start_counts_down (t1 t2 : datetime) (p d r1 : timedelta) :
  valid_period p ->
  0 < p ->
  get_time_until_next_interval_start t1 p = Ok r1 ->
  0 <= d < r1 ->
  time_as_timedelta (datetime_time t2)
  = time_as_timedelta (datetime_time t1) + d ->
  get_time_until_next_interval_start t2 p = Ok (r1 - d).
Proof.
  intros Hv Hpos H1 Hd Hoff.
  rewrite get_time_valid in H1 by exact Hv. injection H1 as <-.
  rewrite get_time_valid by exact Hv. rewrite Hoff. f_equal.
  set (off := time_as_timedelta (datetime_time t1)) in *.
  pose proof (Z.mod_pos_bound off p Hpos) as Hm.
  assert (Hmod : (off + d) mod p = off mod p + d).
  { symmetry. apply (Z.mod_unique_pos _ _ (off / p)); [ lia | ].
    pose proof (Z.div_mod off p ltac:(lia)). lia. }
  lia.
Qed.

Lemma next_interval_start_counts_down_witness :
  get_time_until_next_interval_start
    (MkDatetime 2023 5 1 0 20 0 0 utc) LOGFILE_PERIOD
  = Ok (td_minutes 15 - td_minutes 5).
Proof.
  apply (next_interval_start_counts_down
           (MkDatetime 2023 5 1 0 15 0 0 utc)
           (MkDatetime 2023 5 1 0 20 0 0 utc)
           LOGFILE_PERIOD (td_minutes 5) (td_minutes 15)).
  - split; [ vm_compute; discriminate | exists 48; reflexivity ].
  - reflexivity.
  - reflexivity.
  - split; [ vm_compute; discriminate | reflexivity ].
  - reflexivity.
Defined.

(** X4: which exception the two assertions give.  The zero period, and
    only it, escapes as a [ZeroDivisionError] from the remainder inside the
    second assertion; an [AssertionError] is raised exactly for the periods
    above 24 hours and for the non-zero periods that leave a remainder. *)
Theorem interval_error_classification (t : datetime) (p : timedelta) :
  (get_time_until_next_interval_start t p = Raise ZeroDivisionError <-> p = 0)
  /\ (get_time_until_next_interval_start t p = Raise AssertionError
      <-> td_hours 24 < p \/ (p <> 0 /\ td_hours 24 mod p <> 0)).
Proof.
  unfold get_time_until_next_interval_start, td_mod, total_seconds.
  destruct (p <=? td_hours 24) eqn:Hle; cbn.
  - apply Z.leb_le in Hle.
    destruct (p =? 0) eqn:Hz; cbn.
    + apply Z.eqb_eq in Hz. split; split; try easy. intros [H | [H _]]; lia.
    + apply Z.eqb_neq in Hz.
      destruct (td_hours 24 mod p =? 0) eqn:Hr; cbn.
      * apply Z.eqb_eq in Hr. split; split; try easy.
        intros [H | [_ H]]; [ lia | contradiction ].
      * apply Z.eqb_neq in Hr. split; split; try easy. intros _. now right.
  - apply Z.leb_gt in Hle. split; split; try easy.
    + intros ->. unfold td_hours in Hle. lia.
    + intros _. now left.
Qed.

(** ** More on the file-name formatter *)

Lemma replace_colon_lacks (s : string) :
  lacks ":" (replace_from ":" "-" 0 s) = true.
Proof.
  induction s as [ | c s IH ]; [ reflexivity | ].
  cbn [replace_from String.length Nat.sub String.prefix].
  destruct (ascii_dec ":" c) as [ <- | Hne ].
  - rewrite prefix_nil. apply lacks_app; [ reflexivity | exact IH ].
  - unfold lacks in *. cbn [string_forallb]. rewrite IH, andb_true_r.
    apply negb_true_iff, Ascii.eqb_neq. congruence.
Qed.

(** X5: whatever the datetime (aware or naive, any offset), the rendered
    value contains no colon. *)
Theorem format_datetime_for_filename_no_colon (d : datetime) :
  lacks ":" (format_datetime_for_filename d) = true.
Proof. unfold format_datetime_for_filename. apply replace_colon_lacks. Qed.

Lemma lacks_plus_offset (o : Z) :
  o < 0 -> lacks "+" (format_offset (Some o)) = true.
Proof.
  intros Ho. unfold format_offset. apply Z.ltb_lt in Ho. rewrite Ho.
  destruct (_ =? 0); [ lacks_tac | ].
  destruct (_ =? 0); lacks_tac.
Qed.

Lemma format_without_plus (d : datetime) :
  lacks "+" (format_offset (tzinfo d)) = true ->
  format_datetime_for_filename d
  = spec_naive_stamp d +:+ str_replace ":" "-" (format_offset (tzinfo d)).
Proof.
  intros Hoff.
  unfold format_datetime_for_filename, isoformat, spec_naive_stamp, format_time.
  cbn [replace_microsecond year month day hour minute second microsecond tzinfo].
  change (if N.eqb 0 0 then ""%string else ?x) with ""%string.
  unfold str_replace at 2.
  rewrite replace_from_absent
    by (repeat first [ assumption | apply lacks_zero_pad; reflexivity
                     | reflexivity | apply lacks_app ]).
  unfold str_replace.
  rewrite !replace_char_app.
  rewrite !(replace_from_absent ":" "" "-" (zero_pad _ _))
    by (apply lacks_zero_pad; reflexivity).
  simpl (replace_from ":" "-" 0 "-").
  simpl (replace_from ":" "-" 0 "T").
  simpl (replace_from ":" "-" 0 ":").
  simpl (replace_from ":" "-" 0 "").
  now rewrite !append_assoc, append_nil_l.
Qed.

(** X6: for a naive datetime the result is the date and time at second
    precision with dashes, without suffix; for a negative UTC offset the
    [+00:00] rule never applies and the offset follows with its colons
    turned into dashes. *)
Theorem format_datetime_for_filename_naive_or_west (d : datetime) :
  (tzinfo d = None -> format_datetime_for_filename d = spec_naive_stamp d)
  /\ (forall o, tzinfo d = Some o -> o < 0 ->
        format_datetime_for_filename d
        = spec_naive_stamp d +:+ str_replace ":" "-" (format_offset (Some o))).
Proof.
  split.
  - intros Htz. rewrite format_without_plus by (rewrite Htz; reflexivity).
    rewrite Htz. apply append_empty_r.
  - intros o Htz Ho. rewrite format_without_plus; rewrite Htz;
      [ reflexivity | now apply lacks_plus_offset ].
Qed.

Lemma format_datetime_for_filename_naive_or_west_witness :
  format_datetime_for_filename (MkDatetime 2023 5 1 0 15 30 123456 None)
  = "2023-05-01T00-15-30"%string
  /\ format_datetime_for_filename
       (MkDatetime 2023 5 1 0 15 30 123456 (Some (td_hours (-5))))
     = "2023-05-01T00-15-30-05-00"%string.
Proof.
  split.
  - rewrite (proj1 (format_datetime_for_filename_naive_or_west
                      (MkDatetime 2023 5 1 0 15 30 123456 None)) eq_refl).
    vm_compute. reflexivity.
  - rewrite (proj2 (format_datetime_for_filename_naive_or_west
                      (MkDatetime 2023 5 1 0 15 30 123456 (Some (td_hours (-5)))))
               (td_hours (-5)) eq_refl ltac:(reflexivity)).
    vm_compute. reflexivity.
Defined.

Lemma prefix_app (s b : string) : String.prefix s (s +:+ b) = true.
Proof.
  induction s as [ | c s IH ]; [ apply prefix_nil | ].
  rewrite append_cons. cbn [String.prefix].
  destruct (ascii_dec c c); [ exact IH | congruence ].
Qed.

(** After a match the scan resumes behind the occurrence. *)
Lemma replace_from_skips (old new a b : string) :
  replace_from old new (String.length a) (a +:+ b) = replace_from old new 0 b.
Proof.
  induction a as [ | x a IH ]; [ reflexivity | ].
  rewrite append_cons. cbn [String.length replace_from].
  destruct a as [ | y a' ]; [ reflexivity | exact IH ].
Qed.

Lemma replace_from_match (c : ascii) (old new b : string) :
  replace_from (String c old) new 0 (String c old +:+ b)
  = new +:+ replace_from (String c old) new 0 b.
Proof.
  pose proof (prefix_app (String c old) b) as Hp.
  rewrite append_cons in *. cbn [replace_from]. rewrite Hp.
  cbn [String.length Nat.sub]. rewrite Nat.sub_0_r.
  now rewrite replace_from_skips.
Qed.

Lemma format_offset_below_minute (o : Z) :
  0 < o < td_minutes 1 ->
  format_offset (Some o)
  = "+00:00" +:+ ":" +:+ zero_pad 2 (Z.to_N (o / td_seconds 1))
    +:+ (if o mod td_seconds 1 =? 0 then ""
         else "." +:+ zero_pad 6 (Z.to_N (o mod td_seconds 1))).
Proof.
  intros [Hlo Hhi]. unfold format_offset.
  assert (Hneg : (o <? 0) = false) by (apply Z.ltb_ge; lia).
  rewrite Hneg, Z.abs_eq by lia.
  assert (Hh : o / td_hours 1 = 0)
    by (apply Z.div_small; unfold td_hours, td_minutes in *; lia).
  assert (Hr : o mod td_hours 1 = o)
    by (apply Z.mod_small; unfold td_hours, td_minutes in *; lia).
  rewrite Hh, Hr.
  assert (Hm : o / td_minutes 1 = 0) by (apply Z.div_small; lia).
  assert (Hs : o mod td_minutes 1 = o) by (apply Z.mod_small; lia).
  rewrite Hm, Hs.
  assert (Hz : (o =? 0) = false) by (apply Z.eqb_neq; lia).
  rewrite Hz. reflexivity.
Qed.

(** X7: the [+00:00] rule also applies to an offset that is positive but
    shorter than a minute: such a datetime, though not UTC, is stamped
    with [Z], followed by the seconds of its offset. *)
Theorem format_datetime_for_filename_short_offset (d : datetime) (o : Z) :
  tzinfo d = Some o ->
  0 < o < td_minutes 1 ->
  format_datetime_for_filename d
  = spec_naive_stamp d +:+ "Z-" +:+ zero_pad 2 (Z.to_N (o / td_seconds 1))
    +:+ (if o mod td_seconds 1 =? 0 then ""
         else "." +:+ zero_pad 6 (Z.to_N (o mod td_seconds 1))).
Proof.
  intros Htz Ho.
  unfold format_datetime_for_filename, isoformat, spec_naive_stamp, format_time.
  cbn [replace_microsecond year month day hour minute second microsecond tzinfo].
  change (if N.eqb 0 0 then ""%string else ?x) with ""%string.
  rewrite Htz, format_offset_below_minute by exact Ho.
  unfold str_replace.
  rewrite !(replace_from_passes "+") by lacks_tac.
  rewrite replace_from_match.
  rewrite (replace_from_absent "+" "00:00" "Z")
    by (destruct (_ =? 0); lacks_tac).
  rewrite !replace_char_app.
  rewrite !(replace_from_absent ":" "" "-" (zero_pad _ _))
    by (apply lacks_zero_pad; reflexivity).
  assert (Hfrac :
    replace_from ":" "-" 0
      (if o mod td_seconds 1 =? 0 then ""%string
       else "." +:+ zero_pad 6 (Z.to_N (o mod td_seconds 1)))
    = (if o mod td_seconds 1 =? 0 then ""%string
       else "." +:+ zero_pad 6 (Z.to_N (o mod td_seconds 1)))).
  { apply replace_from_absent. destruct (_ =? 0); lacks_tac. }
  rewrite Hfrac.
  simpl (replace_from ":" "-" 0 "-").
  simpl (replace_from ":" "-" 0 "T").
  simpl (replace_from ":" "-" 0 ":").
  simpl (replace_from ":" "-" 0 "").
  simpl (replace_from ":" "-" 0 "Z").
  now rewrite !append_assoc, !append_nil_l.
Qed.

Lemma format_datetime_for_filename_short_offset_witness :
  format_datetime_for_filename
    (MkDatetime 2023 5 1 0 15 30 123456 (Some (td_seconds 30)))
  = "2023-05-01T00-15-30Z-30"%string.
Proof.
  rewrite (format_datetime_for_filename_short_offset
             (MkDatetime 2023 5 1 0 15 30 123456 (Some (td_seconds 30)))
             (td_seconds 30) eq_refl).
  - vm_compute. reflexivity.
  - split; reflexivity.
Defined.

(** ** More on the process terminator *)

(** X8: the last loop of [end_process] (lines 34-35) reads [poll()] the
    wrong way round: taken on its own it returns after one poll on a
    process that is still alive, and on a process that is gone it polls
    and sleeps for ever, whatever the iteration bound. *)
Theorem final_wait_loop_inverted (fuel : nat) (w : world) :
  (has_exited w = false ->
   kill_wait_loop fuel w = (Ret tt, record_event EvPoll w))
  /\ (has_exited w = true -> fst (kill_wait_loop fuel w) = Diverge).
Proof.
  split; [ apply kill_wait_loop_alive | apply kill_wait_loop_dead ].
Qed.

Lemma final_wait_loop_inverted_witness :
  kill_wait_loop 7 (launched stubborn 0)
  = (Ret tt, record_event EvPoll (launched stubborn 0))
  /\ fst (kill_wait_loop 7 (launched crashed 0)) = Diverge.
Proof.
  split.
  - apply (final_wait_loop_inverted 7 (launched stubborn 0)). reflexivity.
  - apply (final_wait_loop_inverted 7 (launched crashed 0)). reflexivity.
Defined.

(** ** More on the profiling runner *)

Section Inversion.

Context {A B : Type}.

Lemma m_bind_inv (m : M A) (k : A -> M B) (w w' : world) (o : outcome B) :
  m_bind m k w = (o, w') ->
  (exists a w1, m w = (Ret a, w1) /\ k a w1 = (o, w'))
  \/ (exists e, m w = (Exc e, w') /\ o = Exc e)
  \/ (m w = (Diverge, w') /\ o = Diverge).
Proof.
  unfold m_bind. destruct (m w) as [[a | e | ] w1]; intros H.
  - left. eauto.
  - right. left. injection H as <- <-. eauto.
  - right. right. injection H as <- <-. eauto.
Qed.

Lemma lift_inv (r : result A) (w w' : world) (o : outcome A) :
  lift r w = (o, w') ->
  w' = w /\ match r with Ok a => o = Ret a | Raise e => o = Exc e end.
Proof. destruct r; intros H; injection H as <- <-; auto. Qed.

End Inversion.

Lemma popen_inv argv w o w' :
  popen argv w = (o, w') ->
  (exists msg, o = Exc (TypeError msg) /\ w' = w)
  \/ (o = Ret tt /\ sub w' = sub w /\ trace w' = trace w ++ [EvPopen argv]).
Proof.
  unfold popen. destruct (existsb _ _); intros H; injection H as <- <-.
  - left. eauto.
  - right. auto.
Qed.

Lemma await_until_inv target timeout w o w' :
  await_until target timeout w = (o, w') ->
  sub w' = sub w /\ trace w' = trace w
  /\ exit_at w' = exit_at w /\ natural_at w' = natural_at w
  /\ ((o = Ret tt /\ exists e, target = Some e /\ e <= clock w')
      \/ (o = Exc TimeoutExpired /\ timeout <> None)
      \/ (o = Diverge /\ timeout = None /\ target = None /\ w' = w)).
Proof.
  unfold await_until. destruct target as [e | ].
  - destruct (within timeout w e) eqn:Hwi; intros H; injection H as <- <-;
      repeat (split; [ reflexivity | ]).
    + left. split; [ reflexivity | ]. exists e. split; [ reflexivity | ].
      cbn [set_clock clock]. lia.
    + right. left. split; [ reflexivity | ]. intros ->. discriminate.
  - destruct timeout; intros H; injection H as <- <-;
      repeat (split; [ reflexivity | ]); [ right; left | right; right ]; auto.
Qed.

Lemma await_exit_inv timeout w o w' :
  await_exit timeout w = (o, w') ->
  sub w' = sub w /\ trace w' = trace w
  /\ (o = Ret tt /\ has_exited w' = true
      \/ o = Exc TimeoutExpired
      \/ o = Diverge /\ timeout = None).
Proof.
  unfold await_exit. intros H.
  apply await_until_inv in H
    as (Hs & Ht & He & _ & [[-> (e & Htar & Hle)] | [[-> _] | (-> & -> & _)]]);
    (split; [ exact Hs | split; [ exact Ht | ] ]); auto.
  left. split; [ reflexivity | ]. unfold has_exited. rewrite He, Htar.
  now apply Z.leb_le.
Qed.

Lemma wait_caught_inv t w o w' :
  try_timeout (wait t) (mret tt) w = (o, w') ->
  o = Ret tt /\ sub w' = sub w /\ trace w' = trace w ++ [EvWait t].
Proof.
  unfold try_timeout, wait.
  destruct (await_exit (Some t) (record_event (EvWait t) w)) as [o1 w1] eqn:Hw.
  apply await_exit_inv in Hw as (Hs & Ht & [[-> _] | [-> | [_ H]]]);
    [ | | discriminate ];
    intros H; injection H as <- <-; rewrite Hs, Ht; auto.
Qed.

Lemma output_complete_after_exit w c :
  output_complete_at w = Some c -> exists e, exit_at w = Some e /\ e <= c.
Proof.
  unfold output_complete_at. destruct (exit_at w) as [e | ]; [ | discriminate ].
  intros H. exists e. split; [ reflexivity | ].
  destruct (natural_at w) as [n | ]; [ | injection H as <-; lia ].
  destruct (n =? e); [ | injection H as <-; lia ].
  destruct (orphan_linger (sub w)) as [g | ]; [ | discriminate ].
  injection H as <-. lia.
Qed.

Lemma output_never_complete w :
  output_complete_at w = None ->
  exit_at w = None \/ orphan_linger (sub w) = None.
Proof.
  unfold output_complete_at. destruct (exit_at w) as [e | ]; [ | auto ].
  destruct (natural_at w) as [n | ]; [ | discriminate ].
  destruct (n =? e); [ | discriminate ].
  destruct (orphan_linger (sub w)); [ discriminate | auto ].
Qed.

Lemma communicate_inv input timeout w o w' :
  communicate input timeout w = (o, w') ->
  sub w' = sub w
  /\ trace w' = trace w ++ [EvCommunicate input timeout]
  /\ (o = Ret (sub_stdout (sub w), sub_stderr (sub w)) /\ has_exited w' = true
      \/ (o = Exc TimeoutExpired /\ timeout <> None)
      \/ (o = Diverge /\ timeout = None
          /\ (has_exited w = true ->
              orphan_linger (sub w) = None /\ has_exited w' = true))).
Proof.
  unfold communicate, await_output.
  match goal with
  | |- context [await_until _ timeout ?x] => set (x0 := x)
  end.
  assert (Hx : sub x0 = sub w
               /\ trace x0 = trace w ++ [EvCommunicate input timeout]
               /\ (has_exited w = true ->
                   exit_at x0 = exit_at w /\ has_exited x0 = true)).
  { subst x0. destruct (stdin_open _); [ | auto ].
    destruct input as [i | ]; cbn [close_stdin sub trace exit_at]; [ | auto ].
    rewrite schedule_exit_sub, schedule_exit_trace.
    repeat (split; [ reflexivity | ]). intros Hex.
    unfold has_exited. cbn [close_stdin exit_at clock].
    rewrite has_exited_schedule; [ split; [ reflexivity | exact Hex ] | exact Hex ]. }
  clearbody x0. destruct Hx as (Hs & Ht & Hkeep).
  destruct (await_until (output_complete_at x0) timeout x0) as [o1 w1] eqn:Hw.
  apply await_until_inv in Hw
    as (Hs1 & Ht1 & He1 & _
        & [[-> (c & Hc & Hle)] | [[-> Hto] | (-> & -> & Hnone & ->)]]);
    intros H; injection H as <- <-; rewrite ?Hs1, ?Ht1, ?Hs, ?Ht;
    (split; [ reflexivity | split; [ reflexivity | ] ]).
  - left. split; [ reflexivity | ].
    apply output_complete_after_exit in Hc as (e & Hexit & Hec).
    unfold has_exited. rewrite He1, Hexit. apply Z.leb_le. lia.
  - right. left. auto.
  - right. right. split; [ reflexivity | ]. split; [ reflexivity | ].
    intros Hex. destruct (Hkeep Hex) as [Hsame Hex'].
    split; [ | exact Hex' ].
    apply output_never_complete in Hnone as [Hnone | Hnone].
    + rewrite Hsame in Hnone. unfold has_exited in Hex.
      now rewrite Hnone in Hex.
    + now rewrite Hs in Hnone.
Qed.

Lemma decode_utf8_inv (b : bytes) :
  (decode_utf8 b = Ok b /\ utf8_valid (byte_values b) = true)
  \/ (decode_utf8 b = Raise UnicodeDecodeError
      /\ utf8_valid (byte_values b) = false).
Proof. unfold decode_utf8. destruct (utf8_valid _); auto. Qed.

Lemma effective_extra_eq (extra : option (list string)) :
  match extra with Some (x :: l) => x :: l | _ => [] end = effective_extra extra.
Proof. destruct extra as [[ | x l] | ]; reflexivity. Qed.

Lemma communicate_exited_inv input w o w' :
  has_exited w = true ->
  communicate input None w = (o, w') ->
  sub w' = sub w
  /\ trace w' = trace w ++ [EvCommunicate input None]
  /\ has_exited w' = true
  /\ (o = Ret (sub_stdout (sub w), sub_stderr (sub w))
      \/ (o = Diverge /\ orphan_linger (sub w) = None)).
Proof.
  intros Hx H.
  apply communicate_inv in H
    as (Hs & Ht & [[-> He] | [[_ Hto] | (-> & _ & Hd)]]).
  - auto.
  - now contradict Hto.
  - destruct (Hd Hx) as [Hnone Hx']. auto 10.
Qed.

(** Every run with a project name goes one of four ways. *)
Lemma run_profiler_inv fuel rl p extra w0 o w' :
  run_profiler fuel rl (Some p) extra w0 = (o, w') ->
  (trace w' = trace w0 ++ early_calls rl p extra
   /\ has_exited w' = true
   /\ ((exists out err,
          decode_utf8 (sub_stdout (sub w0)) = Ok out
          /\ decode_utf8 (sub_stderr (sub w0)) = Ok err
          /\ o = Exc (RuntimeError (early_message out err)))
       \/ o = Exc UnicodeDecodeError))
  \/ (trace w' = trace w0 ++ stop_calls rl p extra
      /\ has_exited w' = true
      /\ (o = Ret (sub_stdout (sub w0))
          /\ utf8_valid (byte_values (sub_stdout (sub w0))) = true
          \/ o = Exc UnicodeDecodeError
             /\ utf8_valid (byte_values (sub_stdout (sub w0))) = false))
  \/ (trace w' = trace w0 ++ stop_calls rl p extra ++ [EvTime; EvTerminate; EvTime]
      /\ o = Exc float_plus_timedelta)
  \/ (trace w' = trace w0 ++ early_calls rl p extra
      /\ has_exited w' = true
      /\ o = Diverge
      /\ orphan_linger (sub w0) = None).
Proof.
  intros H. unfold run_profiler in H. cbv zeta in H.
  rewrite effective_extra_eq in H. unfold mbind, M_bind in H.
  unfold m_bind at 1 in H. unfold popen in H.
  rewrite profiler_argv_no_none in H.
  cbv zeta in H.
  match type of H with
  | context [set_natural_at ?n (set_exit_at ?e (record_event ?ev w0))] =>
      set (w1 := set_natural_at n (set_exit_at e (record_event ev w0))) in H
  end.
  assert (Hs1 : sub w1 = sub w0) by reflexivity.
  assert (Ht1 : trace w1
                = trace w0 ++ [EvPopen (profiler_argv rl (Some p) (effective_extra extra))])
    by reflexivity.
  clearbody w1.
  apply m_bind_inv in H as [(u2 & w2 & Hwait & H) | [(e & Hwait & ->) | [Hwait ->]]];
    try (apply wait_caught_inv in Hwait as (Hc & _); discriminate).
  apply wait_caught_inv in Hwait as (_ & Hs2 & Ht2).
  unfold m_bind at 1 in H. unfold poll in H.
  set (w3 := record_event EvPoll w2) in H.
  assert (Hs3 : sub w3 = sub w0) by (cbn; congruence).
  assert (Ht3 : trace w3
                = trace w0 ++ [EvPopen (profiler_argv rl (Some p) (effective_extra extra));
                               EvWait (total_seconds rl
                                       + total_seconds PROFILER_OUTPUT_WAIT_TIMEOUT);
                               EvPoll]).
  { cbn [w3 record_event trace]. rewrite Ht2, Ht1. now rewrite <- !app_assoc. }
  clearbody w3. clear Hs1 Ht1 Hs2 Ht2 w1 w2.
  destruct (has_exited w3) eqn:Hx.
  - apply m_bind_inv in H as [(a & w4 & Hcom & H) | [(e & Hcom & ->) | [Hcom ->]]];
      apply (communicate_exited_inv _ _ _ _ Hx) in Hcom
        as (Hs4 & Ht4 & Hx4 & [Ho | [Ho Horph]]);
      try discriminate.
    2: { right. right. right. rewrite Ht4, Ht3, <- Hs3. unfold early_calls.
         rewrite <- !app_assoc. auto. }
    left.
    injection Ho as ->. cbn beta iota in H.
    assert (Htr : trace w4 = trace w0 ++ early_calls rl p extra).
    { rewrite Ht4, Ht3. unfold early_calls. now rewrite <- !app_assoc. }
    rewrite Hs3 in H.
    apply m_bind_inv in H as [(out & w5 & Hd1 & H) | [(e & Hd1 & ->) | [Hd1 ->]]];
      apply lift_inv in Hd1 as [-> Hd1];
      destruct (decode_utf8 (sub_stdout (sub w0))) as [out' | e'] eqn:Ho;
      try discriminate.
    + injection Hd1 as ->.
      apply m_bind_inv in H as [(err & w6 & Hd2 & H) | [(e & Hd2 & ->) | [Hd2 ->]]];
        apply lift_inv in Hd2 as [-> Hd2];
        destruct (decode_utf8 (sub_stderr (sub w0))) as [err' | e'] eqn:He;
        try discriminate.
      * injection Hd2 as ->. injection H as <- <-. eauto 10.
      * injection Hd2 as ->.
        destruct (decode_utf8_inv (sub_stderr (sub w0))) as [[Hd _] | [Hd _]];
          rewrite Hd in He; [ discriminate | injection He as <- ]. auto.
    + injection Hd1 as ->.
      destruct (decode_utf8_inv (sub_stdout (sub w0))) as [[Hd _] | [Hd _]];
        rewrite Hd in Ho; [ discriminate | injection Ho as <- ]. auto.
  - right.
    apply m_bind_inv in H as [(a & w4 & Htry & H) | [(e & Htry & ->) | [Htry ->]]].
    all: unfold try_timeout in Htry.
    all: destruct (communicate _ _ w3) as [o5 w5] eqn:Hcom.
    all: apply communicate_inv in Hcom
           as (Hs5 & Ht5 & [[-> Hx5] | [[-> _] | (-> & Hnd & _)]]).
    all: try discriminate Hnd.
    all: try (rewrite end_process_raises in Htry).
    all: try (unfold m_bind in Htry; rewrite end_process_raises in Htry).
    all: try discriminate.
    + left. injection Htry as <- <-. rewrite Hs3 in H. cbn beta iota in H.
      assert (Htr : trace w5 = trace w0 ++ stop_calls rl p extra).
      { rewrite Ht5, Ht3. unfold stop_calls. now rewrite <- !app_assoc. }
      apply m_bind_inv in H as [(out & w6 & Hd1 & H) | [(e & Hd1 & ->) | [Hd1 ->]]];
        apply lift_inv in Hd1 as [-> Hd1];
        destruct (decode_utf8_inv (sub_stdout (sub w0))) as [[Hd Hv] | [Hd Hv]];
        rewrite Hd in Hd1; try discriminate.
      * injection Hd1 as ->. injection H as <- <-. auto.
      * injection Hd1 as ->. auto.
    + right. left. injection Htry as <- <-. split; [ | reflexivity ].
      cbn [record_event trace]. rewrite schedule_exit_trace.
      cbn [record_event trace]. rewrite Ht5, Ht3. unfold stop_calls.
      now rewrite <- !app_assoc.
Qed.

(** X9: [run_profiler] can block for ever in one place only, the plain
    [communicate()] of line 91: if it does not come back, a project name
    was given, the subordinate has exited, the calls made are launch,
    bounded wait, poll and that [communicate()], and the output pipes are
    held for ever by a process it left behind.  With pipes that are
    released it always returns or raises, whatever the iteration bound;
    and a subordinate that exits early and leaves the pipes held does make
    it block. *)
Theorem run_profiler_blocks_only_on_held_pipes fuel rl p extra (w0 : world) :
  (forall w', run_profiler fuel rl p extra w0 = (Diverge, w') ->
     exists name,
       p = Some name
       /\ orphan_linger (sub w0) = None
       /\ has_exited w' = true
       /\ trace w' = trace w0 ++ early_calls rl name extra)
  /\ (orphan_linger (sub w0) <> None ->
      fst (run_profiler fuel rl p extra w0) <> Diverge)
  /\ (forall name s t0,
        p = Some name ->
        w0 = init_world s t0 ->
        exits_within s (total_seconds rl + total_seconds PROFILER_OUTPUT_WAIT_TIMEOUT) ->
        orphan_linger s = None ->
        fst (run_profiler fuel rl p extra w0) = Diverge).
Proof.
  assert (Hinv : forall w', run_profiler fuel rl p extra w0 = (Diverge, w') ->
            exists name,
              p = Some name
              /\ orphan_linger (sub w0) = None
              /\ has_exited w' = true
              /\ trace w' = trace w0 ++ early_calls rl name extra).
  { intros w' H. destruct p as [name | ];
      [ | rewrite run_profiler_no_project in H; discriminate ].
    exists name. split; [ reflexivity | ].
    apply run_profiler_inv in H
      as [(_ & _ & [(out & err & _ & _ & Ho) | Ho])
         | [(_ & _ & [[Ho _] | [Ho _]])
           | [[_ Ho] | (Ht & Hx & _ & Horph)]]];
      try discriminate.
    auto. }
  split; [ exact Hinv | split ].
  - intros Hheld Hd.
    destruct (run_profiler fuel rl p extra w0) as [o w'] eqn:H.
    cbn [fst] in Hd. subst o.
    destruct (Hinv w' eq_refl) as (name & _ & Horph & _). contradiction.
  - intros name s t0 -> -> Hex Horph.
    rewrite (run_profiler_early_outcome fuel rl name extra s t0 Hex).
    now rewrite Horph.
Qed.

Lemma run_profiler_blocks_only_on_held_pipes_witness :
  fst (run_profiler 0 (td_minutes 30) (Some "demo") None
         (init_world orphaning 0)) = Diverge
  /\ fst (run_profiler 0 (td_minutes 30) (Some "demo") None
            (init_world crashed 0)) <> Diverge.
Proof.
  split.
  - apply (proj2 (proj2 (run_profiler_blocks_only_on_held_pipes
                           0 (td_minutes 30) (Some "demo") None
                           (init_world orphaning 0)))
             "demo" orphaning 0); try reflexivity.
    vm_compute. discriminate.
  - apply (proj1 (proj2 (run_profiler_blocks_only_on_held_pipes
                           0 (td_minutes 30) (Some "demo") None
                           (init_world crashed 0)))).
    discriminate.
Defined.

(** X10: whenever [run_profiler] returns a text, that text is the
    subordinate's standard output, which is valid UTF-8; the subordinate
    has exited; and the runner made exactly four calls (launch, bounded
    wait, poll, stop token with bounded wait), sending no signal. *)
Theorem run_profiler_returned_text fuel rl p extra (w0 w' : world) data :
  run_profiler fuel rl p extra w0 = (Ret data, w') ->
  exists name,
    p = Some name
    /\ data = sub_stdout (sub w0)
    /\ utf8_valid (byte_values data) = true
    /\ has_exited w' = true
    /\ trace w' = trace w0 ++ stop_calls rl name extra.
Proof.
  intros H. destruct p as [name | ];
    [ | rewrite run_profiler_no_project in H; discriminate ].
  exists name. split; [ reflexivity | ].
  apply run_profiler_inv in H
    as [(_ & _ & [(out & err & _ & _ & Ho) | Ho])
       | [(Ht & Hx & [[Ho Hv] | [Ho _]])
         | [[_ Ho] | (_ & _ & Ho & _)]]];
    try discriminate.
  injection Ho as ->. auto.
Qed.

Lemma run_profiler_returned_text_witness :
  has_exited
    (snd (run_profiler 0 (td_minutes 30) (Some "demo") None
            (init_world well_behaved 0))) = true
  /\ trace (snd (run_profiler 0 (td_minutes 30) (Some "demo") None
                   (init_world well_behaved 0)))
     = stop_calls (td_minutes 30) "demo" None.
Proof.
  destruct (run_profiler_returned_text 0 (td_minutes 30) (Some "demo") None
              (init_world well_behaved 0)
              (snd (run_profiler 0 (td_minutes 30) (Some "demo") None
                      (init_world well_behaved 0)))
              "report")
    as (name & Hn & _ & _ & Hx & Ht).
  - vm_compute. reflexivity.
  - injection Hn as <-. split; [ exact Hx | exact Ht ].
Defined.

(** X11: each way in which [run_profiler] ends is a returned text, a
    [TypeError], a [UnicodeDecodeError], or the early-exit [RuntimeError]
    (when it ends at all: see X9 for the one place where it can block);
    in particular the error of line 100 (Profiler process failed to
    terminate) is never raised. *)
Theorem run_profiler_outcomes fuel rl p extra (w : world) :
  runner_outcome (fst (run_profiler fuel rl p extra w))
  /\ (forall out err,
        fst (run_profiler fuel rl p extra w)
        <> Exc (RuntimeError (unresponsive_message out err))).
Proof.
  destruct p as [name | ].
  2: { rewrite run_profiler_no_project. cbn. split; [ exact I | discriminate ]. }
  destruct (run_profiler fuel rl (Some name) extra w) as [o w'] eqn:H.
  cbn [fst].
  apply run_profiler_inv in H
    as [(_ & _ & [(out & err & _ & _ & ->) | ->])
       | [(_ & _ & [[-> _] | [-> _]])
         | [[_ ->] | (_ & _ & -> & _)]]];
    cbn; (split; [ eauto | ]); try discriminate.
Qed.

(** X12: when [run_profiler] raises a [RuntimeError], it is the early-exit
    error built from the decoded output, the subordinate has exited, and
    the runner neither wrote the stop token nor sent a signal: its calls
    were launch, bounded wait, poll and a plain [communicate()]. *)
Theorem run_profiler_runtime_error fuel rl p extra (w0 w' : world) msg :
  run_profiler fuel rl p extra w0 = (Exc (RuntimeError msg), w') ->
  exists name out err,
    p = Some name
    /\ decode_utf8 (sub_stdout (sub w0)) = Ok out
    /\ decode_utf8 (sub_stderr (sub w0)) = Ok err
    /\ msg = early_message out err
    /\ has_exited w' = true
    /\ trace w' = trace w0 ++ early_calls rl name extra.
Proof.
  intros H. destruct p as [name | ];
    [ | rewrite run_profiler_no_project in H; discriminate ].
  apply run_profiler_inv in H
    as [(Ht & Hx & [(out & err & Hout & Herr & Ho) | Ho])
       | [(_ & _ & [[Ho _] | [Ho _]])
         | [[_ Ho] | (_ & _ & Ho & _)]]];
    try discriminate.
  injection Ho as ->. exists name, out, err. auto 10.
Qed.

Lemma run_profiler_runtime_error_witness :
  has_exited
    (snd (run_profiler 0 (td_minutes 30) (Some "demo") None
            (init_world crashed 0))) = true
  /\ trace (snd (run_profiler 0 (td_minutes 30) (Some "demo") None
                   (init_world crashed 0)))
     = early_calls (td_minutes 30) "demo" None.
Proof.
  destruct (run_profiler_runtime_error 0 (td_minutes 30) (Some "demo") None
              (init_world crashed 0)
              (snd (run_profiler 0 (td_minutes 30) (Some "demo") None
                      (init_world crashed 0)))
              (early_message "usage" "no such project"))
    as (name & out & err & Hn & _ & _ & _ & Hx & Ht).
  - vm_compute. reflexivity.
  - injection Hn as <-. split; [ exact Hx | exact Ht ].
Defined.




(** X14: a subordinate that never exits on its own and does not react to
    the stop token within the output time-out makes the run end in the
    type error of [end_process]: after the four calls of a normal run the
    runner reads the clock, sends one SIGTERM and reads the clock again,
    and no kill follows. *)
Theorem run_profiler_unresponsive fuel rl p extra (s : subordinate) t0 :
  natural_exit s = None ->
  (forall l, stop_latency s = Some l ->
             total_seconds PROFILER_OUTPUT_WAIT_TIMEOUT < l) ->
  exists w,
    run_profiler fuel rl (Some p) extra (init_world s t0)
    = (Exc float_plus_timedelta, w)
    /\ trace w = stop_calls rl p extra ++ [EvTime; EvTerminate; EvTime]
    /\ count_event is_kill (trace w) = 0%nat.
Proof.
  intros Hn Hstop.
  pose proof (run_profiler_unresponsive_outcome fuel rl p extra s t0 Hn Hstop) as Ho.
  destruct (run_profiler fuel rl (Some p) extra (init_world s t0)) as [o w] eqn:H.
  cbn [fst] in Ho. subst o. exists w. split; [ reflexivity | ].
  apply run_profiler_inv in H
    as [(_ & _ & [(out & err & _ & _ & Hc) | Hc])
       | [(_ & _ & [[Hc _] | [Hc _]])
         | [[Ht _] | (_ & _ & Hc & _)]]];
    try discriminate.
  cbn [init_world trace app] in Ht. rewrite Ht. split; [ reflexivity | ].
  unfold count_event, stop_calls. reflexivity.
Qed.

Lemma run_profiler_unresponsive_witness :
  exists w,
    run_profiler 0 (td_minutes 30) (Some "demo") None (init_world compliant 0)
    = (Exc float_plus_timedelta, w)
    /\ count_event is_kill (trace w) = 0%nat.
Proof.
  destruct (run_profiler_unresponsive 0 (td_minutes 30) "demo" None compliant 0)
    as (w & Hrun & _ & Hkill).
  - reflexivity.
  - intros l H. vm_compute in H. discriminate H.
  - exists w. split; [ exact Hrun | exact Hkill ].
Defined.

(** ** More on the control loop *)

(** What one pass that is completed leaves behind, by the outcome of its
    run. *)
Lemma loop_body_step fuel a extra ext env st st' :
  loop_body fuel a extra ext env st = Ret st' ->
  (exists e w,
      run_profiler fuel (window_length (env_utcnow env)) (fb_project a)
        (Some extra) (init_world (env_sub env) (env_clock env)) = (Exc e, w)
      /\ journal st' = journal st ++ failure_entries (env_utcnow env) (trace w) e)
  \/ (exists data w p,
      run_profiler fuel (window_length (env_utcnow env)) (fb_project a)
        (Some extra) (init_world (env_sub env) (env_clock env)) = (Ret data, w)
      /\ fb_project a = Some p
      /\ env_open env = None
      /\ journal st'
         = journal st
           ++ success_entries (env_utcnow env) (trace w)
                (path_join (output_folder a)
                   (p +:+ "-" +:+ spec_filename_stamp (env_utcnow env)
                    +:+ "." +:+ ext)) data).
Proof.
  rewrite loop_body_cases.
  destruct (run_profiler _ _ _ _ _) as [[data | e | ] w] eqn:Hrun;
    [ | | discriminate ].
  - destruct (fb_project a) as [p | ] eqn:Hp;
      [ | rewrite run_profiler_no_project in Hrun; discriminate ].
    cbn [render_project]. destruct (env_open env) eqn:Hopen; [ discriminate | ].
    intros H. injection H as <-. right. exists data, w, p. auto.
  - intros H. injection H as <-. left. exists e, w. auto.
Qed.

(** A relation that every pass establishes, and that is reflexive and
    transitive, holds across the whole loop. *)
Lemma main_loop_rel (R : main_state -> main_state -> Prop) fuel a extra ext :
  (forall st, R st st) ->
  (forall st1 st2 st3, R st1 st2 -> R st2 st3 -> R st1 st3) ->
  (forall env st st', loop_body fuel a extra ext env st = Ret st' -> R st st') ->
  forall envs st st',
    main_loop fuel a extra ext envs st = Ret st' -> R st st'.
Proof.
  intros Hrefl Htrans Hstep. induction envs as [ | env rest IH ]; intros st st' H.
  - injection H as <-. apply Hrefl.
  - cbn [main_loop] in H.
    destruct (loop_body fuel a extra ext env st) as [st1 | e | ] eqn:Hb;
      try discriminate.
    eapply Htrans; [ apply (Hstep _ _ _ Hb) | apply (IH _ _ H) ].
Qed.

(** X15: without a project name every run fails at [Popen] with a
    [TypeError], before anything is launched and without a single call on
    a subordinate; so, however many passes are made, the loop completes
    them all, writes nothing, and the journal gains, for each pass, the
    start record, a run without calls and the record of that error. *)
Theorem loop_without_project fuel a extra ext envs st :
  fb_project a = None ->
  (forall rl w, run_profiler fuel rl (fb_project a) (Some extra) w
                = (Exc no_project_error, w))
  /\ main_loop fuel a extra ext envs st
     = Ret {| journal :=
                journal st
                ++ flat_map (fun env => failure_entries (env_utcnow env) []
                                          no_project_error) envs |}
  /\ List.filter is_write
       (flat_map (fun env => failure_entries (env_utcnow env) []
                               no_project_error) envs) = [].
Proof.
  intros Hp. split; [ | split ].
  - intros rl w. rewrite Hp. apply run_profiler_no_project.
  - revert st. induction envs as [ | env rest IH ]; intros st.
    + cbn. rewrite app_nil_r. now destruct st.
    + cbn [main_loop flat_map].
      rewrite loop_body_cases, Hp, run_profiler_no_project.
      rewrite IH. cbn [journal init_world trace]. now rewrite <- app_assoc.
  - induction envs as [ | env rest IH ]; [ reflexivity | ].
    cbn [flat_map]. rewrite List.filter_app, IH. reflexivity.
Qed.

Lemma loop_without_project_witness :
  main_loop 0 (MkArgs "/home/u/logs/" None false) [] "txt"
    [sample_env; failing_env] empty_state
  = Ret {| journal :=
             failure_entries sample_now [] no_project_error
             ++ failure_entries sample_now [] no_project_error |}.
Proof.
  rewrite (proj1 (proj2 (loop_without_project 0
                           (MkArgs "/home/u/logs/" None false) [] "txt"
                           [sample_env; failing_env] empty_state eq_refl))).
  reflexivity.
Defined.

(** X17: a pass writes at most one file: after any number of passes the
    journal holds at most as many new writes as passes were made. *)
Theorem loop_at_most_one_write_per_pass fuel a extra ext envs : forall st st',
  main_loop fuel a extra ext envs st = Ret st' ->
  (length (List.filter is_write (journal st'))
   <= length (List.filter is_write (journal st)) + length envs)%nat.
Proof.
  induction envs as [ | env rest IH ]; intros st st' H.
  - injection H as <-. cbn. lia.
  - cbn [main_loop] in H.
    destruct (loop_body fuel a extra ext env st) as [st1 | e | ] eqn:Hb;
      try discriminate.
    apply IH in H.
    apply loop_body_step in Hb
      as [(e & w & _ & Hj) | (data & w & p & _ & _ & _ & Hj)];
      rewrite Hj, List.filter_app, length_app in H; cbn in H;
      cbn [length]; lia.
Qed.

Lemma loop_at_most_one_write_per_pass_witness :
  exists st',
    main_loop 0 sample_args [] "txt" [failing_env; sample_env] empty_state
    = Ret st'
    /\ (length (List.filter is_write (journal st')) <= 2)%nat.
Proof.
  eexists. split.
  - vm_compute. reflexivity.
  - eapply (loop_at_most_one_write_per_pass 0 sample_args [] "txt"
              [failing_env; sample_env] empty_state).
    vm_compute. reflexivity.
Defined.

Lemma window_length_range (now : datetime) :
  0 < window_length now <= LOGFILE_PERIOD.
Proof.
  unfold window_length.
  pose proof (Z.mod_pos_bound (time_as_timedelta (datetime_time now))
                LOGFILE_PERIOD ltac:(reflexivity)).
  lia.
Qed.

(** Every launch recorded by a run carries the command line built from the
    run's own arguments. *)
Lemma run_profiler_launches fuel rl proj extra s t0 o w :
  run_profiler fuel rl proj (Some extra) (init_world s t0) = (o, w) ->
  forall argv, In (EvPopen argv) (trace w) -> argv = profiler_argv rl proj extra.
Proof.
  intros H argv Hin. destruct proj as [p | ].
  2: { rewrite run_profiler_no_project in H. injection H as <- <-.
       destruct Hin. }
  apply run_profiler_inv in H
    as [(Ht & _) | [(Ht & _) | [(Ht & _) | (Ht & _)]]];
    rewrite Ht in Hin; unfold early_calls, stop_calls in Hin;
    cbn [init_world trace app In] in Hin;
    repeat (destruct Hin as [Hin | Hin]; try discriminate);
    try (injection Hin as <-; reflexivity); try destruct Hin.
Qed.

Lemma path_join_suffix (suffix a b : string) :
  has_suffix suffix b -> has_suffix suffix (path_join a b).
Proof.
  intros [pre ->]. unfold path_join.
  destruct (String.prefix _ _); [ now exists pre | ].
  destruct (_ || _).
  - exists (a +:+ pre). now rewrite append_assoc.
  - exists (a +:+ "/" +:+ pre). now rewrite !append_assoc.
Qed.

Lemma entry_ok_step fuel a env st st' :
  loop_body fuel a (raw_extra a) (raw_extension a) env st = Ret st' ->
  exists new, journal st' = journal st ++ new /\ Forall (entry_ok a) new.
Proof.
  intros H. apply loop_body_step in H
    as [(e & w & Hrun & Hj) | (data & w & p & Hrun & Hp & _ & Hj)];
    eexists; (split; [ exact Hj | ]).
  - repeat constructor.
    + apply window_length_range.
    + apply window_length_range.
    + apply (run_profiler_launches _ _ _ _ _ _ _ _ Hrun).
  - repeat constructor.
    + apply window_length_range.
    + apply window_length_range.
    + apply (run_profiler_launches _ _ _ _ _ _ _ _ Hrun).
    + apply path_join_suffix.
      exists (p +:+ "-" +:+ spec_filename_stamp (env_utcnow env)).
      now rewrite !append_assoc.
Qed.

(** X18: in [main], every run a pass makes is for a window length in
    (0, 30 minutes], every launch has the command line [firebase
    database:profile --duration <that length> --project <project>],
    followed by [--raw] exactly when raw output is requested, and every
    file written has the extension [json] with raw output and [txt]
    without. *)
Theorem main_entries_ok fuel a envs st st' :
  main fuel a envs st = Ret st' ->
  exists new, journal st' = journal st ++ new /\ Forall (entry_ok a) new.
Proof.
  unfold main.
  change (if output_format_raw a then ["--raw"%string] else []) with (raw_extra a).
  change (if output_format_raw a then "json"%string else "txt"%string)
    with (raw_extension a).
  apply (main_loop_rel
           (fun st st' => exists new, journal st' = journal st ++ new
                                      /\ Forall (entry_ok a) new)).
  - intros s0. exists []. split; [ now rewrite app_nil_r | constructor ].
  - intros s1 s2 s3 (n1 & H1 & F1) (n2 & H2 & F2). exists (n1 ++ n2).
    split; [ now rewrite H2, H1, <- app_assoc | now apply Forall_app ].
  - intros env s0 s1. apply entry_ok_step.
Qed.

Lemma main_entries_ok_witness :
  exists st' new,
    main 0 (MkArgs "/home/u/logs/" (Some "demo") true) [sample_env] empty_state
    = Ret st'
    /\ journal st' = journal empty_state ++ new
    /\ Forall (entry_ok (MkArgs "/home/u/logs/" (Some "demo") true)) new.
Proof.
  eexists.
  edestruct (main_entries_ok 0 (MkArgs "/home/u/logs/" (Some "demo") true)
               [sample_env] empty_state)
    as (new & Hj & Hall).
  - vm_compute. reflexivity.
  - exists new. split; [ reflexivity | ]. split; [ exact Hj | exact Hall ].
Defined.




